(** * ChipPort: the request/response pipeline of [main.cpp]

    A shallow embedding of the HTTP core of ChipPort
    ([getContentType], [Request], [Response], [RouteEntry],
    [RequestHandler]) together with the fragments of the C++ standard
    library the code relies on ([std::string::find], [find_last_of],
    [substr], [std::istringstream] with [getline] and [operator>>],
    [std::find], [std::map]), of the body of [HttpServer::run] for one
    connection, and of the request and the responses of the first server,
    [net.cpp].  The sockets ([HttpServer::initialize], [accept], [read],
    [write]) stay outside: a connection is given by the bytes [read]
    delivers.

    Conventions.
    - [std::string] is a [string]: a sequence of 8-bit characters.
    - [size_t] values are integers, and arithmetic on them is taken modulo
      [2^64]; a position that may be [npos] is an [option nat], with
      [None] for [npos].
    - A C++ call that may throw returns an [outcome].
    - [std::map<std::string, V>] and [std::unordered_map<std::string, V>]
      are [gmap string V].
    - The calls to [log] only write to standard output and are left out. *)

From Stdlib Require Import ZArith Ascii String DecimalString DecimalNat.
From stdpp Require Import gmap strings.
From Stdlib Require DecimalPos DecimalZ.

Local Open Scope Z_scope.

(** ** Outcomes of C++ calls *)

Inductive exception : Set :=
| out_of_range
| ios_failure.

(** [Returns a]: normal return.  [Throws e]: an exception leaves the call.
    [Fuel]: the fuel given to a loop of the model was used up (never the
    case with the fuel the model supplies, see [Request_new_terminates]). *)
Inductive outcome (A : Type) : Type :=
| Returns (a : A)
| Throws (e : exception)
| Fuel.
Arguments Returns {A} a.
Arguments Throws {A} e.
Arguments Fuel {A}.

#[global] Instance outcome_ret : MRet outcome := @Returns.

#[global] Instance outcome_bind : MBind outcome := λ A B k m,
  match m with
  | Returns a => k a
  | Throws e => Throws e
  | Fuel => Fuel
  end.

(** ** Characters *)

Definition LF : ascii := "010"%char.
Definition CR : ascii := "013"%char.
(** The string literal of one line feed. *)
Definition nl : string := String LF "".

(** [std::isspace] in the classic locale. *)
Definition isspace (c : ascii) : bool :=
  match c with
  | "009" | "010" | "011" | "012" | "013" | " " => true
  | _ => false
  end%char.

(** ** [std::string] *)

Module Str.

Definition size_mod : Z := 2 ^ 64.

(** Arithmetic on [size_t] wraps around. *)
Definition wrap (z : Z) : Z := z mod size_mod.

Definition size (s : string) : Z := Z.of_nat (String.length s).

Fixpoint drop (n : nat) (s : string) : string :=
  match n, s with
  | O, _ => s
  | S _, "" => ""
  | S n', String _ s' => drop n' s'
  end.

Fixpoint take (n : nat) (s : string) : string :=
  match n, s with
  | O, _ => ""
  | S _, "" => ""
  | S n', String c s' => String c (take n' s')
  end.

(** [s.substr(pos, n)]: throws when [pos > size()], and otherwise copies
    [min(n, size() - pos)] characters starting at [pos]. *)
Definition substr (s : string) (pos n : Z) : outcome string :=
  if size s <? pos then Throws out_of_range
  else Returns (take (Z.to_nat (Z.min n (size s - pos))) (drop (Z.to_nat pos) s)).

(** [npos], as a count: the largest [size_t]. *)
Definition npos : Z := size_mod - 1.

(** [s.substr(pos)]: the count defaults to [npos], which no size reaches,
    so that the copy runs to the end of the string
    (see [substr_npos_to_end]). *)
Definition substr_to_end (s : string) (pos : Z) : outcome string :=
  if size s <? pos then Throws out_of_range
  else Returns (drop (Z.to_nat pos) s).

(** [s.find(c)]: position of the first [c], [None] for [npos]. *)
Fixpoint find (s : string) (c : ascii) : option nat :=
  match s with
  | "" => None
  | String a s' =>
      if Ascii.eqb a c then Some O
      else match find s' c with
           | Some i => Some (S i)
           | None => None
           end
  end.

(** [s.find_last_of(c)]: position of the last [c], [None] for [npos]. *)
Fixpoint find_last_of (s : string) (c : ascii) : option nat :=
  match s with
  | "" => None
  | String a s' =>
      match find_last_of s' c with
      | Some i => Some (S i)
      | None => if Ascii.eqb a c then Some O else None
      end
  end.

(** Does [c] occur in [s]?  (Used to state facts, not by the code.) *)
Fixpoint occurs (c : ascii) (s : string) : bool :=
  match s with
  | "" => false
  | String a s' => Ascii.eqb a c || occurs c s'
  end.

End Str.

(** ** [getContentType] (main.cpp, lines 22-43) *)

Definition extensionToContentType : gmap string string :=
  <[".js" := "application/javascript"]>
  (<[".css" := "text/css"]>
  (<[".png" := "image/png"]>
  (<[".jpeg" := "image/jpeg"]>
  (<[".jpg" := "image/jpeg"]>
  (<[".html" := "text/html"]> ∅))))).

Definition getContentType (filename : string) : outcome string :=
  match Str.find_last_of filename "." with
  | Some dotPosition =>
      extension ← Str.substr_to_end filename (Z.of_nat dotPosition);
      match extensionToContentType !! extension with
      | Some contentType => Returns contentType
      | None => Returns "application/octet-stream"
      end
  | None => Returns "application/octet-stream"
  end.

(** ** [std::istringstream] *)

(** The unread part of the buffer and the two state bits the code can
    observe.  [operator bool] of a stream is [!fail()]. *)
Record istringstream : Type := {
  rdbuf : string;
  eofbit : bool;
  failbit : bool
}.

Definition istringstream_new (text : string) : istringstream :=
  {| rdbuf := text; eofbit := false; failbit := false |}.

Definition good (ist : istringstream) : bool :=
  negb (eofbit ist) && negb (failbit ist).

(** Characters up to the first [delim]: the characters read, the rest of
    the buffer behind the delimiter, and whether the delimiter was met. *)
Fixpoint read_until (delim : ascii) (s : string) : string * string * bool :=
  match s with
  | "" => ("", "", false)
  | String c s' =>
      if Ascii.eqb c delim then ("", s', true)
      else let '(l, rest, found) := read_until delim s' in
           (String c l, rest, found)
  end.

(** [std::getline(ist, str)].  On a stream that is not good the sentry sets
    [failbit] and [str] keeps its value.  Otherwise [str] is erased and
    filled up to the next line feed, which is extracted and dropped;
    reaching the end of the buffer sets [eofbit], and [failbit] too when
    nothing at all was extracted. *)
Definition getline (ist : istringstream) (str : string) : istringstream * string :=
  if good ist then
    let '(l, rest, found) := read_until LF (rdbuf ist) in
    ({| rdbuf := rest;
        eofbit := negb found;
        failbit := negb found && bool_decide (l = "") |}, l)
  else
    ({| rdbuf := rdbuf ist; eofbit := eofbit ist; failbit := true |}, str).

Fixpoint skipws (s : string) : string :=
  match s with
  | "" => ""
  | String c s' => if isspace c then skipws s' else s
  end.

(** Characters up to the first white space: the word and the rest. *)
Fixpoint read_word (s : string) : string * string :=
  match s with
  | "" => ("", "")
  | String c s' =>
      if isspace c then ("", s)
      else let '(w, rest) := read_word s' in (String c w, rest)
  end.

(** [ist >> str].  The sentry skips white space; when the stream is not good
    or holds nothing else, [failbit] is set and [str] keeps its value.
    Otherwise [str] receives the next word; [eofbit] is set when the word
    ends with the buffer. *)
Definition extract (ist : istringstream) (str : string) : istringstream * string :=
  if good ist then
    match skipws (rdbuf ist) with
    | "" => ({| rdbuf := ""; eofbit := true; failbit := true |}, str)
    | s =>
        let '(w, rest) := read_word s in
        ({| rdbuf := rest; eofbit := bool_decide (rest = ""); failbit := false |}, w)
    end
  else
    ({| rdbuf := rdbuf ist; eofbit := eofbit ist; failbit := true |}, str).

(** ** [Request] (main.cpp, lines 45-75) *)

Module Request.

Record t : Type := {
  method : string;
  path : string;
  httpVersion : string;
  headers : gmap string string;
  body : string
}.

(** The header loop, lines 59-66.  The loop condition reads a line and
    stops when the read fails or the line is a lone carriage return. *)
Fixpoint header_loop (fuel : nat) (stream : istringstream) (line : string)
    (headers : gmap string string)
    : outcome (istringstream * string * gmap string string) :=
  match fuel with
  | O => Fuel
  | S fuel' =>
      let '(stream, line) := getline stream line in
      if negb (failbit stream) && negb (bool_decide (line = String CR "")) then
        match Str.find line ":" with
        | Some colonPos =>
            let colonPos := Z.of_nat colonPos in
            headerName ← Str.substr line 0 colonPos;
            headerValue ← Str.substr line (Str.wrap (colonPos + 2))
                            (Str.wrap (Str.size line - colonPos - 3));
            header_loop fuel' stream line (<[headerName := headerValue]> headers)
        | None => header_loop fuel' stream line headers
        end
      else Returns (stream, line, headers)
  end.

(** The body loop, lines 69-72. *)
Fixpoint body_loop (fuel : nat) (stream : istringstream) (bodyContent : string)
    (body : string) : outcome (istringstream * string * string) :=
  match fuel with
  | O => Fuel
  | S fuel' =>
      let '(stream, bodyContent) := getline stream bodyContent in
      if negb (failbit stream) then
        body_loop fuel' stream bodyContent (body +:+ (bodyContent +:+ nl))
      else Returns (stream, bodyContent, body)
  end.

(** Each turn of either loop that goes on has consumed a character, so
    one more turn than the buffer has characters is enough. *)
Definition loop_fuel (stream : istringstream) : nat :=
  S (String.length (rdbuf stream)).

(** The constructor of [Request], from the text of the request. *)
Definition new (requestText : string) : outcome t :=
  let stream := istringstream_new requestText in
  let line := "" in
  let '(stream, line) := getline stream line in
  let requestLine := istringstream_new line in
  let '(requestLine, method) := extract requestLine "" in
  let '(requestLine, path) := extract requestLine "" in
  let '(requestLine, httpVersion) := extract requestLine "" in
  '(stream, line, headers) ← header_loop (loop_fuel stream) stream line ∅;
  '(stream, bodyContent, body) ← body_loop (loop_fuel stream) stream "" "";
  Returns {| method := method; path := path; httpVersion := httpVersion;
             headers := headers; body := body |}.

End Request.

(** ** [Response] (main.cpp, lines 77-91) *)

Module Response.

Definition STATUS_SUCCESS : Z := 200.
Definition STATUS_NOT_FOUND : Z := 404.
Definition STATUS_METHOD_NOT_ALLOWED : Z := 405.

Record t : Type := {
  code : Z;
  body : string;
  contentType : string
}.

(** [os << n] for an [int] and for a [size_t]: decimal digits. *)
Definition put_int (n : Z) : string := NilZero.string_of_int (Z.to_int n).
Definition put_size (n : nat) : string := NilZero.string_of_uint (Nat.to_uint n).

Definition reason_phrase (code : Z) : string :=
  if code =? STATUS_SUCCESS then "OK"
  else if code =? STATUS_NOT_FOUND then "Not Found"
  else "Method Not Allowed".

(** [Response::buildResponse]: everything inserted into the
    [std::ostringstream], in order. *)
Definition buildResponse (this : t) : string :=
  "HTTP/1.1 " +:+ put_int (code this) +:+ " "
  +:+ reason_phrase (code this) +:+ nl
  +:+ "Content-Type: " +:+ contentType this +:+ nl
  +:+ "Content-Length: " +:+ put_size (String.length (body this)) +:+ nl +:+ nl
  +:+ body this.

End Response.

(** ** [RouteEntry] and [RequestHandler] (main.cpp, lines 93-152) *)

Module RouteEntry.

Record t : Type := {
  allowedMethods : list string;
  content : string;
  isFile : bool
}.

End RouteEntry.

(** What a name stands for once it is open: a file whose bytes the read
    delivers, or something that opens and cannot be read (a directory, a
    failing device), on which the read of line 141 throws
    [std::ios_base::failure]. *)
Inductive file : Type :=
| Readable (bytes : string)
| Unreadable.

(** The file system at the time of a request: [None] when
    [std::ifstream file(name)] fails to open. *)
Definition filesystem : Type := string → option file.

(** [std::find(first, last, value)] on a list: the iterator returned is
    the part of the list from the first element equal to [value]; [[]]
    is [end()]. *)
Fixpoint std_find (l : list string) (value : string) : list string :=
  match l with
  | [] => []
  | x :: l' => if bool_decide (x = value) then l else std_find l' value
  end.

Module RequestHandler.

Import RouteEntry Response.

Record t : Type := {
  routeLookUp : gmap string RouteEntry.t
}.

(** The constructor: [routeLookUp[path] = entry], six times. *)
Definition new : t :=
  let index := {| allowedMethods := ["GET"]; content := "./templates/index.html"; isFile := true |} in
  let routeLookUp := <["/" := index]> (∅ : gmap string RouteEntry.t) in
  let test1 := {| allowedMethods := ["GET"]; content := "./templates/test.html"; isFile := true |} in
  let routeLookUp := <["/test/get" := test1]> routeLookUp in
  let test2 := {| allowedMethods := ["POST"]; content := "./templates/test.html"; isFile := true |} in
  let routeLookUp := <["/test/post" := test2]> routeLookUp in
  let test3 := {| allowedMethods := ["PUT"]; content := "./templates/test.html"; isFile := true |} in
  let routeLookUp := <["/test/put" := test3]> routeLookUp in
  let test4 := {| allowedMethods := ["GET"; "POST"]; content := "./templates/test.html"; isFile := true |} in
  let routeLookUp := <["/test/post-get" := test4]> routeLookUp in
  let favicon := {| allowedMethods := ["GET"]; content := "./static/img/favicon.jpg"; isFile := true |} in
  let routeLookUp := <["/favicon.ico" := favicon]> routeLookUp in
  {| routeLookUp := routeLookUp |}.

(** [RequestHandler::handleRequest].  A member function that is not
    [const]: it returns its result together with the object it leaves. *)
Definition handleRequest (fs : filesystem) (request : Request.t)
    (this : t) : outcome Response.t * t :=
  match routeLookUp this !! Request.path request with
  | None =>
      (Returns {| code := STATUS_NOT_FOUND;
                  body := "<html><body>404 Route Not Found: "
                          +:+ Request.path request +:+ "</body></html>";
                  contentType := "text/html" |}, this)
  | Some route =>
      let allowedMethods := allowedMethods route in
      if bool_decide (std_find allowedMethods (Request.method request) = []) then
        let allowed :=
          foldl (λ allowed method, allowed +:+ (method +:+ " ")) "" allowedMethods in
        (Returns {| code := STATUS_METHOD_NOT_ALLOWED;
                    body := "<html><body>405 Method Not Allowed: "
                            +:+ Request.method request
                            +:+ " not allowed for " +:+ Request.path request
                            +:+ ". Allowed methods: " +:+ allowed
                            +:+ "</body></html>";
                    contentType := "text/html" |}, this)
      else if isFile route then
        match fs (content route) with
        | None =>
            (Returns {| code := STATUS_NOT_FOUND;
                        body := "<html><body>404 Resource Not Found: "
                                +:+ Request.path request +:+ "</body></html>";
                        contentType := "text/html" |}, this)
        | Some Unreadable => (Throws ios_failure, this)
        | Some (Readable content') =>
            (contentType ← getContentType (content route);
             Returns {| code := STATUS_SUCCESS; body := content';
                        contentType := contentType |}, this)
        end
      else
        (Returns {| code := STATUS_SUCCESS; body := content route;
                    contentType := "text/html" |}, this)
  end.

(** One request after the other on the same handler, as in
    [HttpServer::run]; each request comes with the file system of its
    time. *)
Fixpoint handleRequests (requests : list (filesystem * Request.t))
    (this : t) : list (outcome Response.t) * t :=
  match requests with
  | [] => ([], this)
  | (fs, request) :: requests' =>
      let '(response, this) := handleRequest fs request this in
      let '(responses, this) := handleRequests requests' this in
      (response :: responses, this)
  end.

End RequestHandler.

(** ** [HttpServer::run] (main.cpp, lines 194-217), one connection *)

Module HttpServer.

(** A [std::string] built from a pointer to [char]: the characters before
    the first NUL. *)
Fixpoint c_string (buffer : string) : string :=
  match buffer with
  | "" => ""
  | String c buffer' =>
      if Ascii.eqb c "000"%char then "" else String c (c_string buffer')
  end.

(** The body of the loop for a connection on which [read] delivers
    [received]: at most 2999 bytes reach the zeroed buffer of 3000, the
    request is built from the buffer as a C string, and the serialized
    response is what [write] sends. *)
Definition connection (fs : filesystem) (received : string)
    (requestHandler : RequestHandler.t) : outcome string * RequestHandler.t :=
  let buffer := Str.take 2999 received in
  match Request.new (c_string buffer) with
  | Returns request =>
      let '(response, requestHandler) :=
        RequestHandler.handleRequest fs request requestHandler in
      (response ← response; Returns (Response.buildResponse response),
       requestHandler)
  | Throws e => (Throws e, requestHandler)
  | Fuel => (Fuel, requestHandler)
  end.

End HttpServer.

(** ** The first server, [net.cpp] *)

Module Net.

(** [HttpServer::HttpRequest] (net.cpp, lines 17-44). *)
Module HttpRequest.

Record t : Type := {
  method : string;
  path : string;
  httpVersion : string;
  headers : gmap string string;
  body : string
}.

(** The header loop, lines 31-38. *)
Fixpoint header_loop (fuel : nat) (stream : istringstream) (line : string)
    (headers : gmap string string)
    : outcome (istringstream * string * gmap string string) :=
  match fuel with
  | O => Fuel
  | S fuel' =>
      let '(stream, line) := getline stream line in
      if negb (failbit stream) && negb (bool_decide (line = String CR "")) then
        match Str.find line ":" with
        | Some colonPos =>
            let colonPos := Z.of_nat colonPos in
            headerName ← Str.substr line 0 colonPos;
            headerValue ← Str.substr line (Str.wrap (colonPos + 2))
                            (Str.wrap (Str.size line - colonPos - 3));
            header_loop fuel' stream line (<[headerName := headerValue]> headers)
        | None => header_loop fuel' stream line headers
        end
      else Returns (stream, line, headers)
  end.

(** The body loop, lines 40-42: it reads into [line] again. *)
Fixpoint body_loop (fuel : nat) (stream : istringstream) (line : string)
    (body : string) : outcome (istringstream * string * string) :=
  match fuel with
  | O => Fuel
  | S fuel' =>
      let '(stream, line) := getline stream line in
      if negb (failbit stream) then
        body_loop fuel' stream line (body +:+ (line +:+ nl))
      else Returns (stream, line, body)
  end.

Definition new (request : string) : outcome t :=
  let stream := istringstream_new request in
  let line := "" in
  let '(stream, line) := getline stream line in
  let requestLine := istringstream_new line in
  let '(requestLine, method) := extract requestLine "" in
  let '(requestLine, path) := extract requestLine "" in
  let '(requestLine, httpVersion) := extract requestLine "" in
  '(stream, line, headers) ←
    header_loop (Request.loop_fuel stream) stream line ∅;
  '(stream, line, body) ← body_loop (Request.loop_fuel stream) stream line "";
  Returns {| method := method; path := path; httpVersion := httpVersion;
             headers := headers; body := body |}.

(** The request of [main.cpp] with the same fields. *)
Definition of_main (request : Request.t) : t :=
  {| method := Request.method request; path := Request.path request;
     httpVersion := Request.httpVersion request;
     headers := Request.headers request; body := Request.body request |}.

End HttpRequest.

(** The body of the loop of [HttpServer::run] (net.cpp, lines 95-121) for
    a connection on which [read] delivers [received]: what [write]
    sends. *)
Definition connection (received : string) : outcome string :=
  let buffer := Str.take 2999 received in
  request ← HttpRequest.new (HttpServer.c_string buffer);
  let response :=
    if bool_decide (HttpRequest.path request = "/") then
      "HTTP/1.1 200 OK" +:+ nl +:+ "Content-Type: text/plain" +:+ nl
      +:+ "Content-Length: 12" +:+ nl +:+ nl +:+ "Hello world!"
    else if bool_decide (HttpRequest.path request = "/favicon.ico") then
      "HTTP/1.1 404 Not Found" +:+ nl +:+ "Content-Type: text/plain" +:+ nl
      +:+ "Content-Length: 0" +:+ nl +:+ nl
    else
      "HTTP/1.1 404 Not Found" +:+ nl +:+ "Content-Type: text/plain" +:+ nl
      +:+ "Content-Length: 3" +:+ nl +:+ nl +:+ "404" in
  Returns response.

End Net.

(** ** What a client reads

    The definitions of this part are not code of the server: they say how
    the contract reads a file extension and a serialized response. *)

(** The table of the specification, read as a function of the extension
    (the dot included, compared case-sensitively). *)
Definition content_type_of_extension (ext : string) : string :=
  if decide (ext = ".html") then "text/html"
  else if decide (ext = ".jpg") then "image/jpeg"
  else if decide (ext = ".jpeg") then "image/jpeg"
  else if decide (ext = ".png") then "image/png"
  else if decide (ext = ".css") then "text/css"
  else if decide (ext = ".js") then "application/javascript"
  else "application/octet-stream".

(** The number a decimal field stands for. *)
Definition decimal_value (digits : string) : option nat :=
  Nat.of_uint <$> NilZero.uint_of_string digits.

(** The lines of a text, split at every line feed. *)
Fixpoint lines (s : string) : list string :=
  match s with
  | "" => [""]
  | String c s' =>
      if Ascii.eqb c LF then "" :: lines s'
      else match lines s' with
           | l :: ls => String c l :: ls
           | [] => [String c ""]
           end
  end.

Fixpoint strip_prefix (p s : string) : option string :=
  match p, s with
  | "", _ => Some s
  | String a p', String b s' => if Ascii.eqb a b then strip_prefix p' s' else None
  | String _ _, "" => None
  end.

(** The first header line [name: value] among [ls], the lines of the head:
    the head ends at the first empty line. *)
Fixpoint header_of_lines (name : string) (ls : list string) : option string :=
  match ls with
  | [] => None
  | "" :: _ => None
  | l :: ls' =>
      match strip_prefix (name +:+ ": ") l with
      | Some value => Some value
      | None => header_of_lines name ls'
      end
  end.

(** The value of header [name] in a serialized response: the status line
    is skipped. *)
Definition header_field (name : string) (response : string) : option string :=
  header_of_lines name (tail (lines response)).

Definition CRLF : string := String CR (String LF "").

(** Is [c] the last character of [s]? *)
Fixpoint ends_with (c : ascii) (s : string) : bool :=
  match s with
  | "" => false
  | String a s' =>
      match s' with
      | "" => Ascii.eqb a c
      | _ => ends_with c s'
      end
  end.

(** [s] with a line feed added, unless it is empty or ends with one. *)
Definition terminated (s : string) : string :=
  if ends_with LF s || bool_decide (s = "") then s else s +:+ nl.

(** Sample inputs: a file system that holds the index template only, and
    a request given by its method and path. *)
Definition fs_index : filesystem := λ name,
  if bool_decide (name = "./templates/index.html")
  then Some (Readable "<h1>ChipPort</h1>") else None.

Definition request_of (method path : string) : Request.t :=
  {| Request.method := method; Request.path := path;
     Request.httpVersion := "HTTP/1.1"; Request.headers := ∅;
     Request.body := "" |}.

(** ** What a request text holds

    The lines and words of a text, and what the lines of a request stand
    for: the reading against which the constructor of [Request] is
    compared. *)

(** The lines of a text as successive reads deliver them: a line ends at a
    line feed or at the end of the text, and a text that ends with a line
    feed has no empty last line. *)
Fixpoint getlines (s : string) : list string :=
  match s with
  | "" => []
  | String c s' =>
      if Ascii.eqb c LF then "" :: getlines s'
      else match getlines s' with
           | l :: ls => String c l :: ls
           | [] => [String c ""]
           end
  end.

(** The lines a stream still delivers. *)
Definition pending (stream : istringstream) : list string :=
  if good stream then getlines (rdbuf stream) else [].

(** The words of a text: the maximal runs of characters that are not white
    space.  [words_go s] is the word that [s] starts with (empty when [s]
    starts with white space) and the words behind it. *)
Fixpoint words_go (s : string) : string * list string :=
  match s with
  | "" => ("", [])
  | String c s' =>
      let '(w, ws) := words_go s' in
      if isspace c then ("", if w is "" then ws else w :: ws)
      else (String c w, ws)
  end.

Definition words (s : string) : list string :=
  let '(w, ws) := words_go s in if w is "" then ws else w :: ws.

(** The words a stream still delivers. *)
Definition pending_words (stream : istringstream) : list string :=
  if good stream then words (rdbuf stream) else [].

(** [s] cut at its first colon: what stands before and behind it. *)
Fixpoint split_colon (s : string) : option (string * string) :=
  match s with
  | "" => None
  | String c s' =>
      if Ascii.eqb c ":" then Some ("", s')
      else match split_colon s' with
           | Some (name, rest) => Some (String c name, rest)
           | None => None
           end
  end.

Fixpoint remove_last (s : string) : string :=
  match s with
  | "" => ""
  | String c s' => if s' is "" then "" else String c (remove_last s')
  end.

(** What a line of the head stands for: nothing without a colon; a header
    whose name stands before the first colon and whose value is what
    follows the colon less its first and its last character; and a line
    that ends with its first colon has no place for a value. *)
Inductive header_line : Type :=
| Skipped
| Broken
| Entry (name value : string).

Definition classify (line : string) : header_line :=
  match split_colon line with
  | None => Skipped
  | Some (name, "") => Broken
  | Some (name, String _ rest) => Entry name (remove_last rest)
  end.

Definition is_broken (line : string) : bool :=
  if classify line is Broken then true else false.

(** The lines of the head, up to the first line that is a lone carriage
    return, and the lines behind that line. *)
Fixpoint head_section (ls : list string) : list string :=
  match ls with
  | [] => []
  | l :: ls' => if bool_decide (l = String CR "") then [] else l :: head_section ls'
  end.

Fixpoint body_section (ls : list string) : list string :=
  match ls with
  | [] => []
  | l :: ls' => if bool_decide (l = String CR "") then ls' else body_section ls'
  end.

(** The headers of the lines of a head: a later line replaces an earlier one
    of the same name. *)
Definition add_header (headers : gmap string string) (line : string)
    : gmap string string :=
  match classify line with
  | Entry name value => <[name := value]> headers
  | _ => headers
  end.

Definition parsed_headers (ls : list string) : gmap string string :=
  foldl add_header ∅ ls.

(** The lines of a body, each followed by a line feed. *)
Fixpoint parsed_body (ls : list string) : string :=
  match ls with
  | [] => ""
  | l :: ls' => l +:+ nl +:+ parsed_body ls'
  end.

(** The three fields of the request line [line]. *)
Definition request_line_field (line : string) (i : nat) : string :=
  default "" (words line !! i).

(** White space only, no white space, and a text at which a word ends. *)
Fixpoint all_space (s : string) : bool :=
  match s with
  | "" => true
  | String c s' => isspace c && all_space s'
  end.

Fixpoint no_space (s : string) : bool :=
  match s with
  | "" => true
  | String c s' => negb (isspace c) && no_space s'
  end.

Definition word_end (s : string) : bool :=
  match s with
  | "" => true
  | String c _ => isspace c
  end.

(** The lines a head can hold without breaking the constructor: a header
    with some character [sep] behind the colon and some character [last]
    at its end, a header with a single character behind the colon, and a
    line without colon. *)
Inductive head_item : Type :=
| Header (name : string) (sep : ascii) (value : string) (last : ascii)
| Bare (name : string) (only : ascii)
| Noise (text : string).

Definition render_item (item : head_item) : string :=
  match item with
  | Header name sep value last =>
      name +:+ ":" +:+ String sep (value +:+ String last "")
  | Bare name only => name +:+ ":" +:+ String only ""
  | Noise text => text
  end.

Definition item_ok (item : head_item) : bool :=
  match item with
  | Header name sep value last =>
      negb (Str.occurs ":" name) && negb (Str.occurs LF name)
      && negb (Ascii.eqb sep LF) && negb (Str.occurs LF value)
      && negb (Ascii.eqb last LF)
  | Bare name only =>
      negb (Str.occurs ":" name) && negb (Str.occurs LF name)
      && negb (Ascii.eqb only LF)
  | Noise text =>
      negb (Str.occurs ":" text) && negb (Str.occurs LF text)
      && negb (bool_decide (text = String CR ""))
  end.

Definition item_entry (item : head_item) : option (string * string) :=
  match item with
  | Header name _ value _ => Some (name, value)
  | Bare name _ => Some (name, "")
  | Noise _ => None
  end.

(** The head as sent: every line followed by a line feed. *)
Fixpoint render_head (items : list head_item) : string :=
  match items with
  | [] => ""
  | item :: items' => render_item item +:+ nl +:+ render_head items'
  end.

Definition store_entry (headers : gmap string string) (item : head_item)
    : gmap string string :=
  match item_entry item with
  | Some (name, value) => <[name := value]> headers
  | None => headers
  end.

(** A request as a client writes it: the request line, the headers as
    [name: value], each line closed by carriage return and line feed, the
    empty line and the body. *)
Fixpoint render_headers (hs : list (string * string)) : string :=
  match hs with
  | [] => ""
  | (name, value) :: hs' =>
      name +:+ ": " +:+ value +:+ CRLF +:+ render_headers hs'
  end.

Definition render_request (method path version : string)
    (hs : list (string * string)) (sent : string) : string :=
  method +:+ " " +:+ path +:+ " " +:+ version +:+ CRLF
  +:+ render_headers hs +:+ CRLF +:+ sent.

Definition header_ok (h : string * string) : bool :=
  negb (Str.occurs ":" h.1) && negb (Str.occurs LF h.1)
  && negb (Str.occurs LF h.2).

(** ** Reading a serialized response back *)

(** What follows the first empty line. *)
Fixpoint body_of (s : string) : option string :=
  match s with
  | "" => None
  | String c s' =>
      match s' with
      | "" => None
      | String c' rest =>
          if Ascii.eqb c LF && Ascii.eqb c' LF then Some rest else body_of s'
      end
  end.

(** The number behind [HTTP/1.1 ] on the status line. *)
Definition status_code (wire : string) : option Z :=
  line ← head (lines wire);
  behind ← strip_prefix "HTTP/1.1 " line;
  Z.of_int <$> NilZero.int_of_string (read_word behind).1.

(** The response a serialized text stands for: the status code, the
    content type and as many bytes of body as the Content-Length header
    announces, when that is all there is behind the empty line. *)
Definition decode_response (wire : string) : option Response.t :=
  code ← status_code wire;
  type ← header_field "Content-Type" wire;
  len ← header_field "Content-Length" wire ≫= decimal_value;
  body ← body_of wire;
  if decide (String.length body = len)
  then Some {| Response.code := code; Response.body := body;
               Response.contentType := type |}
  else None.

(** More sample inputs: [n] letters, and a request of 2999 bytes that ends
    with the colon of its second header. *)
Definition padding (n : nat) : string :=
  string_of_list_ascii (repeat "a"%char n).

Definition long_head : list head_item :=
  [Header "X-Pad" " " (padding 2969) CR].

Definition sample_headers : list (string * string) :=
  [("Host", "example.org"); ("Accept", "*/*"); ("Host", "chipport.test")].

Definition fs_everything : filesystem := λ name,
  if bool_decide (name = "./templates/index.html")
  then Some (Readable "<h1>ChipPort</h1>") else Some (Readable "other").

(** A file system in which the index template is a directory: it opens
    and cannot be read. *)
Definition fs_directories : filesystem := λ name,
  if bool_decide (name = "./templates/index.html") then Some Unreadable
  else None.

Definition sample_request : Request.t :=
  {| Request.method := "GET"; Request.path := "/x?y=1";
     Request.httpVersion := ""; Request.headers := ∅; Request.body := "" |}.

Definition sample_items : list head_item :=
  [Header "Host" "=" "example.org" "!"; Noise "not a header";
   Bare "Accept" CR].

(** ** Facts about strings *)

Lemma app_cons (c : ascii) (s t : string) : String c s +:+ t = String c (s +:+ t).
Proof. reflexivity. Qed.

Lemma app_nil_l (s : string) : "" +:+ s = s.
Proof. reflexivity. Qed.

Lemma app_nil_r (s : string) : s +:+ "" = s.
Proof. induction s as [|c s IH]; [done|]. by rewrite app_cons, IH. Qed.

Lemma app_assoc (s t u : string) : (s +:+ t) +:+ u = s +:+ (t +:+ u).
Proof. induction s as [|c s IH]; [done|]. by rewrite !app_cons, IH. Qed.

Lemma length_app (s t : string) :
  String.length (s +:+ t) = (String.length s + String.length t)%nat.
Proof. induction s as [|c s IH]; [done|]. rewrite app_cons. simpl. by rewrite IH. Qed.

Lemma drop_app_length (s t : string) : Str.drop (String.length s) (s +:+ t) = t.
Proof. induction s as [|c s IH]; [by destruct t|]. by rewrite app_cons. Qed.

Lemma take_all (n : nat) (s : string) :
  (String.length s ≤ n)%nat → Str.take n s = s.
Proof.
  revert n. induction s as [|c s IH]; intros [|n] Hn; simpl in *; try done; try lia.
  rewrite IH; [done|lia].
Qed.

Lemma find_last_of_absent (s : string) (c : ascii) :
  Str.occurs c s = false → Str.find_last_of s c = None.
Proof.
  induction s as [|a s IH]; [done|]. simpl.
  intros [Ha Hs]%orb_false_iff. by rewrite IH, Ha.
Qed.

Lemma find_last_of_app (pre suf : string) (c : ascii) :
  Str.occurs c suf = false →
  Str.find_last_of (pre +:+ String c suf) c = Some (String.length pre).
Proof.
  intros Hsuf. induction pre as [|a pre IH].
  - rewrite app_nil_l. simpl. by rewrite find_last_of_absent, Ascii.eqb_refl.
  - rewrite app_cons. simpl. by rewrite IH.
Qed.

Lemma substr_npos_to_end (s : string) (pos : Z) :
  Str.size s ≤ Str.npos → Str.substr s pos Str.npos = Str.substr_to_end s pos.
Proof.
  intros Hs. unfold Str.substr, Str.substr_to_end.
  destruct (Z.ltb_spec (Str.size s) pos) as [?|Hpos]; [done|].
  f_equal. apply take_all.
  destruct (Z.le_gt_cases 0 pos) as [H0|H0].
  - enough (String.length (Str.drop (Z.to_nat pos) s)
            = (String.length s - Z.to_nat pos)%nat) as ->.
    { unfold Str.size in *. lia. }
    generalize (Z.to_nat pos). clear. intros n. revert n.
    induction s as [|c s IH]; intros [|n]; simpl; auto.
  - replace (Z.to_nat pos) with O by lia. simpl. unfold Str.size in *. lia.
Qed.

Lemma substr_to_end_app (pre ext : string) :
  Str.substr_to_end (pre +:+ ext) (Z.of_nat (String.length pre)) = Returns ext.
Proof.
  unfold Str.substr_to_end, Str.size. rewrite length_app.
  destruct (Z.ltb_spec (Z.of_nat (String.length pre + String.length ext))
              (Z.of_nat (String.length pre))) as [?|_]; [lia|].
  by rewrite Nat2Z.id, drop_app_length.
Qed.

(** ** Content types *)

Lemma extension_lookup (ext : string) :
  default "application/octet-stream" (extensionToContentType !! ext)
  = content_type_of_extension ext.
Proof.
  unfold extensionToContentType, content_type_of_extension.
  repeat (rewrite lookup_insert; repeat case_decide; subst; try done).
Qed.

Lemma last_dot_split (c : ascii) (s : string) :
  Str.occurs c s = false
  ∨ ∃ pre suf, s = pre +:+ String c suf ∧ Str.occurs c suf = false.
Proof.
  induction s as [|a s [IH|(pre & suf & -> & Hsuf)]].
  - by left.
  - simpl. destruct (Ascii.eqb_spec a c) as [->|Hne].
    + right. by exists "", s.
    + by left.
  - right. by exists (String a pre), suf.
Qed.

Lemma getContentType_dot (pre suf : string) :
  Str.occurs "." suf = false →
  getContentType (pre +:+ String "." suf)
  = Returns (content_type_of_extension (String "." suf)).
Proof.
  intros Hsuf. unfold getContentType.
  rewrite find_last_of_app by done. rewrite substr_to_end_app. simpl.
  rewrite <- extension_lookup. by destruct (extensionToContentType !! _).
Qed.

Lemma getContentType_no_dot (filename : string) :
  Str.occurs "." filename = false →
  getContentType filename = Returns "application/octet-stream".
Proof. intros H. unfold getContentType. by rewrite find_last_of_absent. Qed.

(** [getContentType] always returns. *)
Lemma getContentType_returns (filename : string) :
  ∃ contentType, getContentType filename = Returns contentType.
Proof.
  destruct (last_dot_split "." filename) as [H|(pre & suf & -> & H)].
  - rewrite getContentType_no_dot by done. eauto.
  - rewrite getContentType_dot by done. eauto.
Qed.

(** C6. [getContentType] is determined by the part of its argument that
    starts at the last ['.'] (the dot included): the result is the entry of
    the fixed table for that extension, compared case-sensitively
    (.html, .jpg, .jpeg, .png, .css, .js), and
    ["application/octet-stream"] when the extension is not in the table
    (so for ".PNG") or when the argument has no ['.']; every file name
    falls under one of the two cases. *)
Theorem C6_getContentType_last_extension :
  (∀ pre suf : string,
      Str.occurs "." suf = false →
      getContentType (pre +:+ String "." suf)
      = Returns (content_type_of_extension (String "." suf)))
  ∧ (∀ filename : string,
        Str.occurs "." filename = false →
        getContentType filename = Returns "application/octet-stream")
  ∧ (∀ filename : string,
        Str.occurs "." filename = false
        ∨ ∃ pre suf, filename = pre +:+ String "." suf
                     ∧ Str.occurs "." suf = false)
  ∧ (content_type_of_extension ".html" = "text/html"
     ∧ content_type_of_extension ".jpg" = "image/jpeg"
     ∧ content_type_of_extension ".jpeg" = "image/jpeg"
     ∧ content_type_of_extension ".png" = "image/png"
     ∧ content_type_of_extension ".css" = "text/css"
     ∧ content_type_of_extension ".js" = "application/javascript"
     ∧ ∀ ext, ext ∉ [".html"; ".jpg"; ".jpeg"; ".png"; ".css"; ".js"] →
              content_type_of_extension ext = "application/octet-stream")
  ∧ getContentType "a.b.html" = Returns "text/html"
  ∧ getContentType "noext" = Returns "application/octet-stream"
  ∧ getContentType "x.PNG" = Returns "application/octet-stream"
  ∧ getContentType "x.png" = Returns "image/png".
Proof.
  split; [exact getContentType_dot|].
  split; [exact getContentType_no_dot|].
  split; [exact (last_dot_split ".")|].
  split.
  { repeat split; try reflexivity.
    intros ext Hext. unfold content_type_of_extension.
    repeat (case_decide; [subst; exfalso; apply Hext; repeat constructor|]).
    reflexivity. }
  repeat split; vm_compute; reflexivity.
Qed.


(** ** Routing *)

Section routing.

Import RouteEntry Response RequestHandler.

Implicit Types (this : RequestHandler.t) (fs : filesystem)
  (request : Request.t) (route : RouteEntry.t).

Lemma std_find_end (l : list string) (value : string) :
  std_find l value = [] ↔ value ∉ l.
Proof.
  induction l as [|x l IH]; simpl.
  - split; [intros _; apply not_elem_of_nil|done].
  - case_bool_decide as Hx.
    + subst. split; [intros [=]|].
      intros Hn. exfalso. apply Hn, list_elem_of_here.
    + rewrite IH, not_elem_of_cons.
      split; [intros ?; split; [congruence|done]|by intros [_ ?]].
Qed.

(** The methods of a route, each followed by a space: what the loop of
    lines 128-130 appends to [allowed]. *)
Lemma allowed_loop (l : list string) (allowed : string) :
  foldl (λ allowed method, allowed +:+ (method +:+ " ")) allowed l
  = allowed +:+ String.concat " " l +:+ (if l is [] then "" else " ").
Proof.
  revert allowed. induction l as [|m l IH]; intros allowed; simpl.
  - by rewrite app_nil_r.
  - rewrite IH. destruct l as [|m' l]; simpl.
    + by rewrite ?app_nil_r, ?app_assoc.
    + by rewrite ?app_assoc.
Qed.

Lemma handleRequest_unknown_path this fs request :
  routeLookUp this !! Request.path request = None →
  handleRequest fs request this
  = (Returns {| code := 404;
                body := "<html><body>404 Route Not Found: "
                        +:+ Request.path request +:+ "</body></html>";
                contentType := "text/html" |}, this).
Proof. intros H. unfold handleRequest. by rewrite H. Qed.

Lemma handleRequest_method_not_allowed this fs request route :
  routeLookUp this !! Request.path request = Some route →
  Request.method request ∉ allowedMethods route →
  handleRequest fs request this
  = (Returns {| code := 405;
                body := "<html><body>405 Method Not Allowed: "
                        +:+ Request.method request
                        +:+ " not allowed for " +:+ Request.path request
                        +:+ ". Allowed methods: "
                        +:+ String.concat " " (allowedMethods route)
                        +:+ (if allowedMethods route is [] then "" else " ")
                        +:+ "</body></html>";
                contentType := "text/html" |}, this).
Proof.
  intros H Hm. unfold handleRequest. rewrite H.
  rewrite bool_decide_eq_true_2 by by apply std_find_end.
  by rewrite allowed_loop, app_nil_l, app_assoc.
Qed.

Lemma handleRequest_file_missing this fs request route :
  routeLookUp this !! Request.path request = Some route →
  Request.method request ∈ allowedMethods route →
  isFile route = true →
  fs (content route) = None →
  handleRequest fs request this
  = (Returns {| code := 404;
                body := "<html><body>404 Resource Not Found: "
                        +:+ Request.path request +:+ "</body></html>";
                contentType := "text/html" |}, this).
Proof.
  intros H Hm Hf Hfs. unfold handleRequest. rewrite H.
  rewrite bool_decide_eq_false_2 by by rewrite std_find_end; auto.
  by rewrite Hf, Hfs.
Qed.

Lemma handleRequest_file_unreadable this fs request route :
  routeLookUp this !! Request.path request = Some route →
  Request.method request ∈ allowedMethods route →
  isFile route = true →
  fs (content route) = Some Unreadable →
  handleRequest fs request this = (Throws ios_failure, this).
Proof.
  intros H Hm Hf Hfs. unfold handleRequest. rewrite H.
  rewrite bool_decide_eq_false_2 by by rewrite std_find_end; auto.
  by rewrite Hf, Hfs.
Qed.

Lemma handleRequest_file this fs request route data :
  routeLookUp this !! Request.path request = Some route →
  Request.method request ∈ allowedMethods route →
  isFile route = true →
  fs (content route) = Some (Readable data) →
  ∃ type,
    getContentType (content route) = Returns type
    ∧ handleRequest fs request this
      = (Returns {| code := 200; body := data; contentType := type |}, this).
Proof.
  intros H Hm Hf Hfs. unfold handleRequest. rewrite H.
  rewrite bool_decide_eq_false_2 by by rewrite std_find_end; auto.
  rewrite Hf, Hfs.
  destruct (getContentType_returns (content route)) as [type Htype].
  exists type. by rewrite Htype.
Qed.

Lemma handleRequest_literal this fs request route :
  routeLookUp this !! Request.path request = Some route →
  Request.method request ∈ allowedMethods route →
  isFile route = false →
  handleRequest fs request this
  = (Returns {| code := 200; body := content route;
                contentType := "text/html" |}, this).
Proof.
  intros H Hm Hf. unfold handleRequest. rewrite H.
  rewrite bool_decide_eq_false_2 by by rewrite std_find_end; auto.
  by rewrite Hf.
Qed.

Lemma getContentType_no_LF (filename type : string) :
  getContentType filename = Returns type → Str.occurs LF type = false.
Proof.
  destruct (last_dot_split "." filename) as [H|(pre & suf & -> & H)].
  - rewrite getContentType_no_dot by done. by intros [= <-].
  - rewrite getContentType_dot by done. intros [= <-].
    unfold content_type_of_extension. by repeat case_decide.
Qed.

(** Whatever the request, [handleRequest] returns one of the five
    responses of its five [return] statements, or the read of a file that
    opens and cannot be read throws; it leaves the handler as it was. *)
Lemma handleRequest_cases this fs request :
  (∃ response,
      handleRequest fs request this = (Returns response, this)
      ∧ (code response = 200 ∨ code response = 404 ∨ code response = 405)
      ∧ Str.occurs LF (contentType response) = false)
  ∨ (handleRequest fs request this = (Throws ios_failure, this)
     ∧ ∃ route,
         routeLookUp this !! Request.path request = Some route
         ∧ Request.method request ∈ allowedMethods route
         ∧ isFile route = true
         ∧ fs (content route) = Some Unreadable).
Proof.
  destruct (routeLookUp this !! Request.path request) as [route|] eqn:Hroute.
  - destruct (decide (Request.method request ∈ allowedMethods route)) as [Hm|Hm].
    + destruct (isFile route) eqn:Hfile.
      * destruct (fs (content route)) as [[data|]|] eqn:Hfs.
        -- destruct (handleRequest_file this fs request route data)
             as (type & Htype & ->); auto.
           left. eexists. split; [done|]. split; [by left|].
           by eapply getContentType_no_LF.
        -- right. erewrite handleRequest_file_unreadable by done. eauto 6.
        -- left. erewrite handleRequest_file_missing by done. eauto 6.
      * left. erewrite handleRequest_literal by done. eauto.
    + left. erewrite handleRequest_method_not_allowed by done. eauto 6.
  - left. rewrite handleRequest_unknown_path by done. eauto 6.
Qed.

Lemma handleRequest_this this fs request :
  (handleRequest fs request this).2 = this.
Proof.
  by destruct (handleRequest_cases this fs request)
    as [(response & -> & _)|[-> _]].
Qed.

Lemma handleRequest_returned this fs request response :
  (handleRequest fs request this).1 = Returns response →
  (code response = 200 ∨ code response = 404 ∨ code response = 405)
  ∧ Str.occurs LF (contentType response) = false.
Proof.
  destruct (handleRequest_cases this fs request)
    as [(response' & -> & Hcode & Htype)|[-> _]]; [|done].
  by intros [= <-].
Qed.

Lemma new_routes (name : string) :
  name ∉ ["/"; "/test/get"; "/test/post"; "/test/put"; "/test/post-get";
          "/favicon.ico"] →
  routeLookUp RequestHandler.new !! name = None.
Proof.
  intros Hname. unfold RequestHandler.new. simpl.
  repeat (rewrite lookup_insert_ne
            by (intros <-; apply Hname; repeat constructor)).
  apply lookup_empty.
Qed.

End routing.

(** ** Serialization *)

Section serialization.

Import Response.

Lemma lines_line (l rest : string) :
  Str.occurs LF l = false →
  lines (l +:+ String LF rest) = l :: lines rest.
Proof.
  induction l as [|c l IH]; [done|].
  rewrite app_cons. simpl. intros [Hc Hl]%orb_false_iff.
  by rewrite Hc, IH.
Qed.

Lemma strip_prefix_app (p s : string) : strip_prefix p (p +:+ s) = Some s.
Proof.
  induction p as [|c p IH]; [by destruct s|].
  rewrite app_cons. simpl. by rewrite Ascii.eqb_refl.
Qed.

Lemma occurs_app (c : ascii) (s t : string) :
  Str.occurs c (s +:+ t) = Str.occurs c s || Str.occurs c t.
Proof.
  induction s as [|a s IH]; [done|].
  rewrite app_cons. simpl. by rewrite IH, orb_assoc.
Qed.

Lemma digits_no_LF (d : Decimal.uint) :
  Str.occurs LF (NilEmpty.string_of_uint d) = false.
Proof.
  induction d as [|d IH|d IH|d IH|d IH|d IH|d IH|d IH|d IH|d IH|d IH];
    [done|..]; cbn [NilEmpty.string_of_uint Str.occurs]; by rewrite IH.
Qed.

Lemma put_uint_no_LF (d : Decimal.uint) :
  Str.occurs LF (NilZero.string_of_uint d) = false.
Proof. destruct d; [done|..]; apply digits_no_LF. Qed.

Lemma put_size_no_LF (n : nat) : Str.occurs LF (put_size n) = false.
Proof. apply put_uint_no_LF. Qed.

Lemma put_int_no_LF (n : Z) : Str.occurs LF (put_int n) = false.
Proof.
  unfold put_int. destruct (Z.to_int n);
    cbn [NilZero.string_of_int Str.occurs]; by rewrite put_uint_no_LF.
Qed.

Lemma reason_phrase_no_LF (code : Z) : Str.occurs LF (reason_phrase code) = false.
Proof. unfold reason_phrase. by repeat case_match. Qed.

Lemma decimal_value_put_size (n : nat) : decimal_value (put_size n) = Some n.
Proof.
  unfold decimal_value, put_size.
  rewrite NilZero.usu.
  - simpl. by rewrite Unsigned.of_to.
  - intros Hnil. pose proof (Unsigned.of_to n) as Hn. rewrite Hnil in Hn.
    destruct n; [|done].
    discriminate Hnil.
Qed.

(** The serialized response, line by line. *)
Lemma buildResponse_lines (response : Response.t) :
  buildResponse response
  = ("HTTP/1.1 " +:+ put_int (code response) +:+ " "
     +:+ reason_phrase (code response))
    +:+ String LF
        (("Content-Type: " +:+ contentType response)
         +:+ String LF
             (("Content-Length: " +:+ put_size (String.length (body response)))
              +:+ String LF (String LF (body response)))).
Proof. unfold buildResponse, nl. by rewrite !app_assoc. Qed.

Lemma header_field_content_length (response : Response.t) :
  Str.occurs LF (contentType response) = false →
  header_field "Content-Length" (buildResponse response)
  = Some (put_size (String.length (body response))).
Proof.
  intros Htype. unfold header_field. rewrite buildResponse_lines.
  rewrite lines_line.
  2:{ by rewrite !occurs_app, put_int_no_LF, reason_phrase_no_LF. }
  rewrite lines_line by by rewrite occurs_app, Htype.
  rewrite lines_line by by rewrite occurs_app, put_size_no_LF.
  cbn [tail header_of_lines]. 
  change ("Content-Type: " +:+ contentType response)
    with (String "C" ("ontent-Type: " +:+ contentType response)).
  change (strip_prefix ("Content-Length" +:+ ": ") (String "C" ?s))
    with (@None string).
  change ("Content-Length" +:+ ": ") with "Content-Length: ".
  change ("Content-Length: " +:+ ?s) with (String "C" ("ontent-Length: " +:+ s)).
  cbn [header_of_lines]. 
  change (String "C" ("ontent-Length: " +:+ ?s)) with ("Content-Length: " +:+ s).
  by rewrite strip_prefix_app.
Qed.

End serialization.

(** ** The routing contract *)

Section contract.

Import RouteEntry Response RequestHandler.

Implicit Types (this : RequestHandler.t) (fs : filesystem)
  (request : Request.t) (route : RouteEntry.t).

(** C1. For a route of the table and a request to its path with one of its
    allowed methods, [handleRequest] returns a response with code 200 whose
    body is the whole file (a file route whose file opens and is read, with
    contents [data]) or the literal content of the route (otherwise).  The
    table is any table, that of the constructor included. *)
Theorem C1_allowed_method_200 this fs request route data :
  routeLookUp this !! Request.path request = Some route →
  Request.method request ∈ allowedMethods route →
  (isFile route = true → fs (content route) = Some (Readable data)) →
  ∃ response,
    (handleRequest fs request this).1 = Returns response
    ∧ code response = 200
    ∧ body response = if isFile route then data else content route.
Proof.
  intros Hroute Hm Hdata. destruct (isFile route) eqn:Hfile.
  - destruct (handleRequest_file this fs request route data)
      as (type & _ & ->); auto. eauto.
  - erewrite handleRequest_literal by done. eauto.
Qed.

(** C3. For a route of the table and a request to its path with a method
    that is not among its allowed methods, [handleRequest] returns a
    response with code 405; its body names the method and the path and then
    lists the allowed methods of the route in their order, joined by single
    spaces (and followed by one more space before the closing tags). *)
Theorem C3_method_not_allowed_405 this fs request route :
  routeLookUp this !! Request.path request = Some route →
  Request.method request ∉ allowedMethods route →
  ∃ response,
    (handleRequest fs request this).1 = Returns response
    ∧ code response = 405
    ∧ body response
      = "<html><body>405 Method Not Allowed: " +:+ Request.method request
        +:+ " not allowed for " +:+ Request.path request
        +:+ ". Allowed methods: "
        +:+ String.concat " " (allowedMethods route)
        +:+ (if allowedMethods route is [] then "" else " ")
        +:+ "</body></html>".
Proof.
  intros Hroute Hm. erewrite handleRequest_method_not_allowed by done. eauto.
Qed.

(** C4. A request whose path is not a key of the table gets code 404,
    whatever its method.  Keys are compared as they are: on the table of the
    constructor every path other than the six registered ones gets 404, so
    a registered path with a slash or a query string added does. *)
Theorem C4_unknown_path_404 :
  (∀ this fs request,
      routeLookUp this !! Request.path request = None →
      ∃ response,
        (handleRequest fs request this).1 = Returns response
        ∧ code response = 404)
  ∧ (∀ fs request,
        Request.path request ∉ ["/"; "/test/get"; "/test/post"; "/test/put";
                                "/test/post-get"; "/favicon.ico"] →
        ∃ response,
          (handleRequest fs request RequestHandler.new).1 = Returns response
          ∧ code response = 404)
  ∧ (∀ fs request,
        Request.path request ∈ ["/test/get/"; "/test/get?x=1"; "//";
                                "/?"; "/TEST/GET"; ""] →
        ∃ response,
          (handleRequest fs request RequestHandler.new).1 = Returns response
          ∧ code response = 404).
Proof.
  assert (∀ this fs request,
      routeLookUp this !! Request.path request = None →
      ∃ response,
        (handleRequest fs request this).1 = Returns response
        ∧ code response = 404) as Hgeneral.
  { intros this fs request Hroute.
    rewrite handleRequest_unknown_path by done. eauto. }
  split; [done|]. split.
  - intros fs request Hpath. by apply Hgeneral, new_routes.
  - intros fs request Hpath. apply Hgeneral.
    repeat (apply elem_of_cons in Hpath as [->|Hpath]; [by vm_compute|]).
    by apply elem_of_nil in Hpath.
Qed.

(** C5. For a file route whose file does not open, a request with an
    allowed method gets a regular response with code 404 (and so not 500);
    no exception leaves [handleRequest]. *)
Theorem C5_missing_file_404 this fs request route :
  routeLookUp this !! Request.path request = Some route →
  Request.method request ∈ allowedMethods route →
  isFile route = true →
  fs (content route) = None →
  ∃ response,
    (handleRequest fs request this).1 = Returns response
    ∧ code response = 404
    ∧ code response ≠ 500
    ∧ body response = "<html><body>404 Resource Not Found: "
                      +:+ Request.path request +:+ "</body></html>"
    ∧ contentType response = "text/html".
Proof.
  intros Hroute Hm Hfile Hfs.
  erewrite handleRequest_file_missing by done.
  eexists. split; [done|]. simpl. by repeat split.
Qed.

(** C9. [handleRequest] leaves the handler, and with it the route table
    (its paths and every entry), as it found it: after one request and
    after any sequence of requests. *)
Theorem C9_route_table_unchanged this :
  (∀ fs request, (handleRequest fs request this).2 = this)
  ∧ (∀ requests, (handleRequests requests this).2 = this)
  ∧ (∀ requests,
        routeLookUp (handleRequests requests this).2 = routeLookUp this).
Proof.
  assert (∀ requests, (handleRequests requests this).2 = this) as Hall.
  { induction requests as [|[fs request] requests IH]; simpl; [done|].
    pose proof (handleRequest_this this fs request) as Hthis.
    destruct (handleRequest fs request this) as [response this'].
    simpl in Hthis. subst this'.
    by destruct (handleRequests requests this). }
  split; [|split; [done|]].
  - intros fs request. apply handleRequest_this.
  - intros requests. by rewrite Hall.
Qed.

End contract.


(** ** The serialization contract *)

Section wire.

Import Response RequestHandler.

(** C7. In the output of [buildResponse] the Content-Length line carries
    the decimal digits of the length of the body, counted in bytes, and is
    followed by an empty line and the body itself; read back as a number,
    the digits give that length.  A client that looks the header up in the
    head of the response finds this value when the content type holds no
    line feed, which is the case for every response of [handleRequest].
    The empty body gives 0 and a character of several bytes counts for
    each of its bytes. *)
Theorem C7_content_length_matches_body :
  (∀ response : Response.t,
      buildResponse response
      = "HTTP/1.1 " +:+ put_int (code response) +:+ " "
        +:+ reason_phrase (code response) +:+ nl
        +:+ "Content-Type: " +:+ contentType response +:+ nl
        +:+ "Content-Length: " +:+ put_size (String.length (body response))
        +:+ nl +:+ nl +:+ body response
      ∧ decimal_value (put_size (String.length (body response)))
        = Some (String.length (body response)))
  ∧ (∀ response : Response.t,
        Str.occurs LF (contentType response) = false →
        header_field "Content-Length" (buildResponse response) ≫= decimal_value
        = Some (String.length (body response)))
  ∧ (∀ this fs request response,
        (handleRequest fs request this).1 = Returns response →
        header_field "Content-Length" (buildResponse response) ≫= decimal_value
        = Some (String.length (body response)))
  ∧ header_field "Content-Length"
      (buildResponse {| code := 200; body := ""; contentType := "text/html" |})
    = Some "0"
  ∧ header_field "Content-Length"
      (buildResponse {| code := 200; body := "é"; contentType := "text/html" |})
    = Some "2"
  ∧ header_field "Content-Length"
      (buildResponse {| code := 200; body := "日本語" +:+ nl;
                        contentType := "text/html" |})
    = Some "10".
Proof.
  assert (∀ response : Response.t,
        Str.occurs LF (contentType response) = false →
        header_field "Content-Length" (buildResponse response) ≫= decimal_value
        = Some (String.length (body response))) as Hfield.
  { intros response Htype. rewrite header_field_content_length by done.
    apply decimal_value_put_size. }
  split; [|split; [done|split]].
  - intros response. split; [done|]. apply decimal_value_put_size.
  - intros this fs request response [_ Htype]%handleRequest_returned.
    by apply Hfield.
  - repeat split; vm_compute; reflexivity.
Qed.

(** C8. Every response that [handleRequest] returns has code 200, 404 or
    405, and [buildResponse] starts it with the status line of that code:
    OK, Not Found, Method Not Allowed.  [handleRequest] returns a response
    unless the file of a route found for the path and allowing the method
    opens and cannot be read: the read then throws
    [std::ios_base::failure] and there is no response. *)
Theorem C8_status_codes_and_phrases this fs request :
  (∀ response,
      (handleRequest fs request this).1 = Returns response →
      (code response = 200
       ∧ ∃ rest, buildResponse response = "HTTP/1.1 200 OK" +:+ nl +:+ rest)
      ∨ (code response = 404
         ∧ ∃ rest, buildResponse response
                   = "HTTP/1.1 404 Not Found" +:+ nl +:+ rest)
      ∨ (code response = 405
         ∧ ∃ rest, buildResponse response
                   = "HTTP/1.1 405 Method Not Allowed" +:+ nl +:+ rest))
  ∧ ((∃ response, (handleRequest fs request this).1 = Returns response)
     ∨ ((handleRequest fs request this).1 = Throws ios_failure
        ∧ ∃ route,
            routeLookUp this !! Request.path request = Some route
            ∧ Request.method request ∈ RouteEntry.allowedMethods route
            ∧ RouteEntry.isFile route = true
            ∧ fs (RouteEntry.content route) = Some Unreadable)).
Proof.
  split.
  - intros response [Hcode _]%handleRequest_returned.
    unfold buildResponse.
    destruct Hcode as [Hc|[Hc|Hc]]; rewrite Hc;
      [left|right; left|right; right]; (split; [done|]); eauto.
  - destruct (handleRequest_cases this fs request)
      as [(response & -> & _)|[-> Hroute]]; [left|right]; eauto.
Qed.

End wire.

(** ** Reading a request *)

Section parsing.

Import Request.

Lemma read_until_length (delim : ascii) (s l rest : string) (found : bool) :
  read_until delim s = (l, rest, found) →
  String.length s
  = (String.length l + String.length rest + if found then 1 else 0)%nat.
Proof.
  revert l. induction s as [|c s IH]; intros l; simpl.
  - by intros [= <- <- <-].
  - destruct (Ascii.eqb c delim).
    + intros [= <- <- <-]. simpl. lia.
    + destruct (read_until delim s) as [[l' rest'] found'] eqn:Hs.
      intros [= <- <- <-]. simpl. rewrite (IH l') by done. lia.
Qed.

(** A read that does not fail has consumed a character. *)
Lemma getline_progress (stream stream' : istringstream) (str line : string) :
  getline stream str = (stream', line) →
  failbit stream' = false →
  (String.length (rdbuf stream') < String.length (rdbuf stream))%nat.
Proof.
  unfold getline. destruct (good stream).
  - destruct (read_until LF (rdbuf stream)) as [[l rest] found] eqn:Hread.
    apply read_until_length in Hread.
    intros [= <- <-]. simpl. rewrite Hread.
    destruct found; simpl; [lia|].
    case_bool_decide as Hl; [done|]. intros _.
    destruct l; [done|]. simpl. lia.
  - by intros [= <- <-].
Qed.

Lemma substr_outcome (s : string) (pos n : Z) :
  Str.substr s pos n = Throws out_of_range
  ∨ ∃ sub, Str.substr s pos n = Returns sub.
Proof. unfold Str.substr. case_match; eauto. Qed.

Lemma substr_throws (s : string) (pos n : Z) :
  Str.size s < pos → Str.substr s pos n = Throws out_of_range.
Proof.
  intros Hpos. unfold Str.substr.
  by destruct (Z.ltb_spec (Str.size s) pos) as [_|?]; [|lia].
Qed.

(** The fuel of the header loop is enough: the loop returns or throws. *)
Lemma header_loop_terminates (fuel : nat) (stream : istringstream)
    (line : string) (headers : gmap string string) :
  (String.length (rdbuf stream) < fuel)%nat →
  header_loop fuel stream line headers = Throws out_of_range
  ∨ ∃ result, header_loop fuel stream line headers = Returns result.
Proof.
  revert stream line headers.
  induction fuel as [|fuel IH]; intros stream line headers Hfuel; [lia|].
  simpl. destruct (getline stream line) as [stream' line'] eqn:Hget.
  destruct (failbit stream') eqn:Hfail; simpl; [eauto|].
  pose proof (getline_progress _ _ _ _ Hget Hfail) as Hlt.
  case_bool_decide; simpl; [eauto|].
  destruct (Str.find line' ":") as [colonPos|]; [|apply IH; lia].
  destruct (substr_outcome line' 0 (Z.of_nat colonPos)) as [->|[name ->]];
    simpl; [by left|].
  destruct (substr_outcome line' (Str.wrap (Z.of_nat colonPos + 2))
              (Str.wrap (Str.size line' - Z.of_nat colonPos - 3)))
    as [->|[value ->]]; simpl; [by left|].
  apply IH. lia.
Qed.

(** The body loop returns, and what it adds to [body] is empty or ends
    with a line feed. *)
Lemma body_loop_returns (fuel : nat) (stream : istringstream)
    (bodyContent body : string) :
  (String.length (rdbuf stream) < fuel)%nat →
  ∃ stream' bodyContent' added,
    body_loop fuel stream bodyContent body
    = Returns (stream', bodyContent', body +:+ added)
    ∧ (added = "" ∨ ∃ front, added = front +:+ nl).
Proof.
  revert stream bodyContent body.
  induction fuel as [|fuel IH]; intros stream bodyContent body Hfuel; [lia|].
  simpl. destruct (getline stream bodyContent) as [stream' line] eqn:Hget.
  destruct (failbit stream') eqn:Hfail; simpl.
  - exists stream', line, "". rewrite app_nil_r. auto.
  - pose proof (getline_progress _ _ _ _ Hget Hfail) as Hlt.
    destruct (IH stream' line (body +:+ (line +:+ nl)))
      as (stream'' & line'' & added & -> & Hadded); [lia|].
    exists stream'', line'', ((line +:+ nl) +:+ added).
    split; [by rewrite !app_assoc|].
    right. destruct Hadded as [->|[front ->]].
    + exists line. by rewrite app_nil_r.
    + exists (line +:+ nl +:+ front). by rewrite !app_assoc.
Qed.

(** The three words of the request line: whatever they are, they play no
    part in what follows. *)
Ltac read_request_line :=
  destruct (extract _ "") as [?requestLine ?method];
  destruct (extract _ "") as [?requestLine ?path];
  destruct (extract _ "") as [?requestLine ?httpVersion].

(** The constructor returns or throws [std::out_of_range], and a request
    it returns has a body that is empty or ends with a line feed. *)
Lemma Request_new_terminates (requestText : string) :
  Request.new requestText = Throws out_of_range
  ∨ ∃ request,
      Request.new requestText = Returns request
      ∧ (body request = "" ∨ ∃ front, body request = front +:+ nl).
Proof.
  unfold Request.new.
  destruct (getline _ "") as [stream line].
  read_request_line.
  destruct (header_loop_terminates (loop_fuel stream) stream line ∅)
    as [->|[[[stream' line'] headers] ->]]; [unfold loop_fuel; lia|by left|].
  cbn [mbind outcome_bind].
  destruct (body_loop_returns (loop_fuel stream') stream' "" "")
    as (stream'' & bodyContent & added & -> & Hadded); [unfold loop_fuel; lia|].
  right. cbn [mbind outcome_bind]. eauto.
Qed.

Lemma read_until_line (delim : ascii) (l rest : string) :
  Str.occurs delim l = false →
  read_until delim (l +:+ String delim rest) = (l, rest, true).
Proof.
  induction l as [|c l IH].
  - intros _. rewrite app_nil_l. simpl. by rewrite Ascii.eqb_refl.
  - rewrite app_cons. simpl. intros [-> Hl]%orb_false_iff. by rewrite IH.
Qed.

Lemma read_until_end (delim : ascii) (l : string) :
  Str.occurs delim l = false → read_until delim l = (l, "", false).
Proof.
  induction l as [|c l IH]; [done|].
  simpl. intros [-> Hl]%orb_false_iff. by rewrite IH.
Qed.

Lemma first_split (c : ascii) (s : string) :
  Str.occurs c s = false
  ∨ ∃ l rest, s = l +:+ String c rest ∧ Str.occurs c l = false.
Proof.
  induction s as [|a s IH]; [by left|].
  simpl. destruct (Ascii.eqb_spec a c) as [->|Hne]; simpl.
  - right. by exists "", s.
  - destruct IH as [IH|(l & rest & -> & Hl)]; [by left|].
    right. exists (String a l), rest. split; [done|].
    simpl. rewrite Hl. by destruct (Ascii.eqb_spec a c).
Qed.

Lemma ends_with_absent (c : ascii) (s : string) :
  Str.occurs c s = false → ends_with c s = false.
Proof.
  induction s as [|a s IH]; [done|].
  simpl. intros [Ha Hs]%orb_false_iff. destruct s; auto.
Qed.

Lemma ends_with_app (c : ascii) (l rest : string) :
  ends_with c (l +:+ String c rest)
  = if rest is "" then true else ends_with c rest.
Proof.
  induction l as [|a l IH].
  - rewrite app_nil_l. simpl. destruct rest; [apply Ascii.eqb_refl|done].
  - rewrite app_cons. cbn [ends_with]. rewrite IH.
    by destruct l.
Qed.

Lemma terminated_line (l rest : string) :
  terminated (l +:+ String LF rest) = l +:+ String LF (terminated rest).
Proof.
  unfold terminated. rewrite ends_with_app.
  rewrite (bool_decide_eq_false_2 (_ +:+ _ = "")) by by destruct l.
  destruct rest as [|c rest]; [done|].
  rewrite (bool_decide_eq_false_2 (String c rest = "")) by done.
  rewrite !orb_false_r. destruct (ends_with LF (String c rest)); [done|].
  by rewrite app_assoc.
Qed.

(** The body loop on a fresh stream over [sent]: [sent] itself when it is
    empty or ends with a line feed, [sent] and a line feed otherwise. *)
Lemma body_loop_fresh (fuel : nat) (sent bodyContent body : string) :
  (String.length sent < fuel)%nat →
  ∃ stream' bodyContent',
    body_loop fuel (istringstream_new sent) bodyContent body
    = Returns (stream', bodyContent', body +:+ terminated sent).
Proof.
  revert sent bodyContent body.
  induction fuel as [|fuel IH]; intros sent bodyContent body Hfuel; [lia|].
  destruct (first_split LF sent) as [Hsent|(l & rest & -> & Hl)].
  - simpl. unfold getline. simpl. rewrite read_until_end by done.
    destruct sent as [|c sent]; simpl.
    + rewrite app_nil_r. eauto.
    + destruct fuel as [|fuel]; [simpl in Hfuel; lia|]. simpl.
      unfold terminated. rewrite ends_with_absent by done. simpl. eauto.
  - simpl. unfold getline. simpl. rewrite read_until_line by done. simpl.
    rewrite length_app in Hfuel. simpl in Hfuel.
    destruct (IH rest l (body +:+ (l +:+ nl)))
      as (stream' & bodyContent' & Hloop); [lia|].
    unfold istringstream_new in Hloop. rewrite Hloop.
    rewrite terminated_line, !app_assoc. eauto.
Qed.

Lemma getline_fresh_line (l rest str : string) :
  Str.occurs LF l = false →
  getline (istringstream_new (l +:+ String LF rest)) str
  = (istringstream_new rest, l).
Proof.
  intros Hl. unfold getline. simpl. by rewrite read_until_line.
Qed.

(** A request line, the empty line and [sent]: the body is [sent], with a
    line feed added unless [sent] is empty or ends with one. *)
Lemma Request_new_body (requestLine sent : string) :
  Str.occurs LF requestLine = false →
  ∃ request,
    Request.new (requestLine +:+ nl +:+ CRLF +:+ sent) = Returns request
    ∧ body request = terminated sent.
Proof.
  intros Hline. unfold Request.new.
  change (nl +:+ CRLF +:+ sent) with (String LF (String CR (String LF sent))).
  rewrite getline_fresh_line by done.
  read_request_line.
  unfold loop_fuel. cbn [header_loop].
  change (String CR (String LF sent)) with (String CR "" +:+ String LF sent).
  rewrite getline_fresh_line by done.
  cbn [failbit istringstream_new negb andb].
  rewrite bool_decide_eq_true_2 by done.
  cbn [negb andb mbind outcome_bind rdbuf].
  change (rdbuf (istringstream_new sent)) with sent.
  destruct (body_loop_fresh (S (String.length sent)) sent "" "")
    as (stream' & bodyContent' & ->); [lia|].
  cbn [mbind outcome_bind]. eauto.
Qed.

Lemma find_first (c : ascii) (name rest : string) :
  Str.occurs c name = false →
  Str.find (name +:+ String c rest) c = Some (String.length name).
Proof.
  induction name as [|a name IH].
  - intros _. rewrite app_nil_l. simpl. by rewrite Ascii.eqb_refl.
  - rewrite app_cons. simpl. intros [-> Hname]%orb_false_iff. by rewrite IH.
Qed.

(** A header line that ends with its first colon: the second [substr] of
    the header loop is asked for a position behind the end of the line. *)
Lemma Request_new_colon_at_end (requestLine name rest : string) :
  Str.occurs LF requestLine = false →
  Str.occurs LF name = false →
  Str.occurs ":" name = false →
  Str.size name + 2 < Str.size_mod →
  Request.new (requestLine +:+ nl +:+ name +:+ ":" +:+ nl +:+ rest)
  = Throws out_of_range.
Proof.
  intros Hline HLF Hcolon Hsize. unfold Request.new.
  change (nl +:+ name +:+ ":" +:+ nl +:+ rest)
    with (String LF (name +:+ String ":" (String LF rest))).
  rewrite getline_fresh_line by done.
  read_request_line.
  unfold loop_fuel. cbn [header_loop].
  change (name +:+ String ":" (String LF rest))
    with (name +:+ (String ":" "" +:+ String LF rest)).
  rewrite <- app_assoc.
  rewrite getline_fresh_line.
  2:{ rewrite occurs_app, HLF. reflexivity. }
  cbn [failbit istringstream_new negb andb].
  rewrite bool_decide_eq_false_2.
  2:{ by destruct name as [|a [|b name]]. }
  cbn [negb]. rewrite find_first by done.
  destruct (substr_outcome (name +:+ ":") 0 (Z.of_nat (String.length name)))
    as [->|[headerName ->]]; [done|].
  cbn [mbind outcome_bind].
  rewrite substr_throws; [done|].
  unfold Str.wrap, Str.size in *. rewrite length_app. simpl.
  rewrite Z.mod_small by lia. lia.
Qed.

End parsing.

(** ** The parsing contract *)

Section reading.

Import Request.

(** C10. Whatever the input, a request that the constructor returns has a
    body that is empty or ends with a line feed (the constructor returns
    one unless it throws [std::out_of_range]); so the body is never a
    non-empty text without a final line feed.  After a request line and the
    empty line, the text [sent] is stored as it is when it is empty or ends
    with a line feed, and with a line feed added otherwise. *)
Theorem C10_body_empty_or_ends_with_LF :
  (∀ requestText,
      Request.new requestText = Throws out_of_range
      ∨ ∃ request,
          Request.new requestText = Returns request
          ∧ (body request = "" ∨ ∃ front, body request = front +:+ nl))
  ∧ (∀ requestText request sent,
        Request.new requestText = Returns request →
        sent ≠ "" →
        ends_with LF sent = false →
        body request ≠ sent)
  ∧ (∀ requestLine sent,
        Str.occurs LF requestLine = false →
        ∃ request,
          Request.new (requestLine +:+ nl +:+ CRLF +:+ sent) = Returns request
          ∧ body request = terminated sent)
  ∧ (∃ request,
        Request.new ("POST /test/post HTTP/1.1" +:+ CRLF +:+ CRLF +:+ "abc")
        = Returns request
        ∧ body request = "abc" +:+ nl).
Proof.
  split; [exact Request_new_terminates|]. split; [|split].
  - intros requestText request sent Hnew Hsent Hend Hbody.
    destruct (Request_new_terminates requestText)
      as [Hthrow|(request' & Hnew' & Hcases)]; [congruence|].
    assert (request' = request) as -> by congruence.
    rewrite Hbody in Hcases. destruct Hcases as [?|[front ->]]; [done|].
    unfold nl in Hend. by rewrite ends_with_app in Hend.
  - exact Request_new_body.
  - eexists. split; [vm_compute; reflexivity|]. reflexivity.
Qed.

(** C2, where the code departs from it.  A header line whose first colon
    is its last character makes the constructor throw
    [std::out_of_range]: [line.substr(colonPos + 2, ...)] is asked for a
    position behind the end of the line.  So for a header without value
    sent with bare line feeds, and for an input that stops after the
    colon. *)
Theorem C2_header_ending_in_colon_throws :
  Request.new ("GET / HTTP/1.1" +:+ nl +:+ "Host:" +:+ nl +:+ nl)
  = Throws out_of_range
  ∧ Request.new ("GET / HTTP/1.1" +:+ CRLF +:+ "Host:") = Throws out_of_range
  ∧ (∀ requestLine name rest,
        Str.occurs LF requestLine = false →
        Str.occurs LF name = false →
        Str.occurs ":" name = false →
        Str.size name + 2 < Str.size_mod →
        Request.new (requestLine +:+ nl +:+ name +:+ ":" +:+ nl +:+ rest)
        = Throws out_of_range).
Proof.
  split; [by vm_compute|]. split; [by vm_compute|].
  exact Request_new_colon_at_end.
Qed.

End reading.

(** ** Instances of the contract *)

Section instances.

Import RouteEntry Response RequestHandler.

Lemma C1_witness :
  ∃ response,
    (handleRequest fs_index (request_of "GET" "/") RequestHandler.new).1
    = Returns response
    ∧ code response = 200
    ∧ body response = "<h1>ChipPort</h1>".
Proof.
  apply (C1_allowed_method_200 RequestHandler.new fs_index
           (request_of "GET" "/")
           {| allowedMethods := ["GET"]; content := "./templates/index.html";
              isFile := true |} "<h1>ChipPort</h1>").
  - vm_compute. reflexivity.
  - simpl. constructor.
  - intros _. vm_compute. reflexivity.
Defined.

Lemma C3_witness :
  ∃ response,
    (handleRequest fs_index (request_of "PUT" "/test/post-get")
       RequestHandler.new).1 = Returns response
    ∧ code response = 405
    ∧ body response
      = "<html><body>405 Method Not Allowed: PUT not allowed for /test/post-get. Allowed methods: GET POST </body></html>".
Proof.
  apply (C3_method_not_allowed_405 RequestHandler.new fs_index
           (request_of "PUT" "/test/post-get")
           {| allowedMethods := ["GET"; "POST"];
              content := "./templates/test.html"; isFile := true |}).
  - vm_compute. reflexivity.
  - simpl. intros Hin. apply elem_of_cons in Hin as [Hin|Hin]; [done|].
    apply elem_of_cons in Hin as [Hin|Hin]; [done|].
    by apply elem_of_nil in Hin.
Defined.

Lemma C4_witness :
  ∃ response,
    (handleRequest fs_index (request_of "GET" "/nope") RequestHandler.new).1
    = Returns response
    ∧ code response = 404.
Proof.
  apply (proj1 C4_unknown_path_404 RequestHandler.new fs_index
           (request_of "GET" "/nope")).
  vm_compute. reflexivity.
Defined.

Lemma C5_witness :
  ∃ response,
    (handleRequest fs_index (request_of "GET" "/favicon.ico")
       RequestHandler.new).1 = Returns response
    ∧ code response = 404
    ∧ code response ≠ 500
    ∧ body response
      = "<html><body>404 Resource Not Found: /favicon.ico</body></html>"
    ∧ contentType response = "text/html".
Proof.
  apply (C5_missing_file_404 RequestHandler.new fs_index
           (request_of "GET" "/favicon.ico")
           {| allowedMethods := ["GET"]; content := "./static/img/favicon.jpg";
              isFile := true |}).
  - vm_compute. reflexivity.
  - simpl. constructor.
  - reflexivity.
  - vm_compute. reflexivity.
Defined.

Lemma C6_witness :
  getContentType ("./static/img/favicon" +:+ String "." "jpg")
  = Returns "image/jpeg".
Proof.
  apply (proj1 C6_getContentType_last_extension "./static/img/favicon" "jpg").
  vm_compute. reflexivity.
Defined.

Lemma C7_witness :
  header_field "Content-Length"
    (buildResponse {| code := 404; body := "Not here"; contentType := "text/plain" |})
  ≫= decimal_value = Some 8%nat.
Proof.
  apply (proj1 (proj2 C7_content_length_matches_body)
           {| code := 404; body := "Not here"; contentType := "text/plain" |}).
  vm_compute. reflexivity.
Defined.

Lemma C8_witness :
  (code (Response.Build_t 200 "<h1>ChipPort</h1>" "text/html") = 200
   ∧ ∃ rest, buildResponse (Response.Build_t 200 "<h1>ChipPort</h1>" "text/html")
             = "HTTP/1.1 200 OK" +:+ nl +:+ rest)
  ∨ (code (Response.Build_t 200 "<h1>ChipPort</h1>" "text/html") = 404
     ∧ ∃ rest, buildResponse (Response.Build_t 200 "<h1>ChipPort</h1>" "text/html")
               = "HTTP/1.1 404 Not Found" +:+ nl +:+ rest)
  ∨ (code (Response.Build_t 200 "<h1>ChipPort</h1>" "text/html") = 405
     ∧ ∃ rest, buildResponse (Response.Build_t 200 "<h1>ChipPort</h1>" "text/html")
               = "HTTP/1.1 405 Method Not Allowed" +:+ nl +:+ rest).
Proof.
  apply (proj1 (C8_status_codes_and_phrases RequestHandler.new fs_index
                  (request_of "GET" "/"))).
  vm_compute. reflexivity.
Defined.

Lemma C10_witness :
  Request.body
    {| Request.method := "POST"; Request.path := "/test/post";
       Request.httpVersion := "HTTP/1.1"; Request.headers := ∅;
       Request.body := "abc" +:+ nl |} ≠ "abc".
Proof.
  apply (proj1 (proj2 C10_body_empty_or_ends_with_LF)
           ("POST /test/post HTTP/1.1" +:+ CRLF +:+ CRLF +:+ "abc")).
  - vm_compute. reflexivity.
  - discriminate.
  - vm_compute. reflexivity.
Defined.

Lemma C2_witness :
  Request.new ("POST /test/post HTTP/1.1" +:+ nl +:+ "X-Empty" +:+ ":" +:+ nl
               +:+ "Host: x" +:+ nl +:+ nl +:+ "abc")
  = Throws out_of_range.
Proof.
  apply (proj2 (proj2 C2_header_ending_in_colon_throws)
           "POST /test/post HTTP/1.1" "X-Empty"
           ("Host: x" +:+ nl +:+ nl +:+ "abc")).
  - vm_compute. reflexivity.
  - vm_compute. reflexivity.
  - vm_compute. reflexivity.
  - vm_compute. reflexivity.
Defined.

(** The scenarios of a whole connection. *)
Example connection_index :
  (HttpServer.connection fs_index
     ("GET / HTTP/1.1" +:+ CRLF +:+ "Host: x" +:+ CRLF +:+ CRLF)
     RequestHandler.new).1
  = Returns ("HTTP/1.1 200 OK" +:+ nl +:+ "Content-Type: text/html" +:+ nl
             +:+ "Content-Length: 17" +:+ nl +:+ nl +:+ "<h1>ChipPort</h1>").
Proof. vm_compute. reflexivity. Qed.

Example connection_method_not_allowed :
  (HttpServer.connection fs_index
     ("POST /test/get HTTP/1.1" +:+ CRLF +:+ CRLF) RequestHandler.new).1
  = Returns ("HTTP/1.1 405 Method Not Allowed" +:+ nl
             +:+ "Content-Type: text/html" +:+ nl
             +:+ "Content-Length: 103" +:+ nl +:+ nl
             +:+ "<html><body>405 Method Not Allowed: POST not allowed for /test/get. Allowed methods: GET </body></html>").
Proof. vm_compute. reflexivity. Qed.

Example connection_unknown_path :
  (HttpServer.connection fs_index
     ("GET /nope HTTP/1.1" +:+ CRLF +:+ CRLF) RequestHandler.new).1
  = Returns ("HTTP/1.1 404 Not Found" +:+ nl
             +:+ "Content-Type: text/html" +:+ nl
             +:+ "Content-Length: 52" +:+ nl +:+ nl
             +:+ "<html><body>404 Route Not Found: /nope</body></html>").
Proof. vm_compute. reflexivity. Qed.

Example connection_header_without_value :
  (HttpServer.connection fs_index
     ("GET / HTTP/1.1" +:+ nl +:+ "Host:" +:+ nl +:+ nl) RequestHandler.new).1
  = Throws out_of_range.
Proof. vm_compute. reflexivity. Qed.

Example connection_unreadable_file :
  (HttpServer.connection fs_directories
     ("GET / HTTP/1.1" +:+ CRLF +:+ CRLF) RequestHandler.new).1
  = Throws ios_failure.
Proof. vm_compute. reflexivity. Qed.

End instances.

(** ** Reading a request, line by line *)

Section lines_of_a_request.

Import Request.

Lemma read_until_getlines (c : ascii) (s : string) :
  ∃ l rest found,
    read_until LF (String c s) = (l, rest, found)
    ∧ getlines (String c s) = l :: getlines rest
    ∧ (found = false → rest = "" ∧ l ≠ "").
Proof.
  revert c. induction s as [|c' s IH]; intros c.
  - cbn [read_until getlines].
    destruct (Ascii.eqb c LF); eexists _, _, _; by repeat split.
  - destruct (IH c') as (l & rest & found & Hread & Hlines & Hrest).
    change (read_until LF (String c (String c' s)))
      with (if Ascii.eqb c LF then ("", String c' s, true)
            else let '(l, rest, found) := read_until LF (String c' s) in
                 (String c l, rest, found)).
    change (getlines (String c (String c' s)))
      with (if Ascii.eqb c LF then "" :: getlines (String c' s)
            else match getlines (String c' s) with
                 | l :: ls => String c l :: ls
                 | [] => [String c ""]
                 end).
    destruct (Ascii.eqb c LF).
    + eexists _, _, _. by repeat split.
    + rewrite Hread, Hlines. eexists _, _, _.
      repeat split; [|done]. by apply Hrest.
Qed.

(** A read delivers the first pending line, and fails when none is left. *)
Lemma getline_pending (stream : istringstream) (str : string) :
  match pending stream with
  | [] => failbit (getline stream str).1 = true
  | l :: ls =>
      ∃ stream', getline stream str = (stream', l)
                 ∧ failbit stream' = false
                 ∧ pending stream' = ls
  end.
Proof.
  unfold pending, getline. destruct (good stream); [|done].
  destruct (rdbuf stream) as [|c s]; [done|].
  destruct (read_until_getlines c s) as (l & rest & found & -> & -> & Hrest).
  eexists. split; [done|]. unfold good. simpl. destruct found; simpl; [done|].
  destruct Hrest as [-> Hl]; [done|].
  by rewrite bool_decide_eq_false_2.
Qed.

Lemma body_loop_pending (fuel : nat) (stream : istringstream)
    (bodyContent body : string) :
  (String.length (rdbuf stream) < fuel)%nat →
  ∃ stream' bodyContent',
    body_loop fuel stream bodyContent body
    = Returns (stream', bodyContent', body +:+ parsed_body (pending stream)).
Proof.
  revert stream bodyContent body.
  induction fuel as [|fuel IH]; intros stream bodyContent body Hfuel; [lia|].
  simpl. pose proof (getline_pending stream bodyContent) as Hget.
  destruct (getline stream bodyContent) as [stream' line] eqn:Hline.
  destruct (pending stream) as [|l ls]; simpl in *.
  - rewrite Hget. simpl. rewrite app_nil_r. eauto.
  - destruct Hget as (stream'' & [= <- <-] & Hfail & Hpending).
    rewrite Hfail. simpl.
    pose proof (getline_progress _ _ _ _ Hline Hfail) as Hlt.
    destruct (IH stream' line (body +:+ (line +:+ nl)))
      as (stream3 & line3 & ->); [lia|].
    rewrite Hpending, !app_assoc. eauto.
Qed.

Lemma split_colon_spec (s : string) :
  match split_colon s with
  | None => Str.find s ":" = None
  | Some (name, rest) =>
      s = name +:+ String ":" rest ∧ Str.find s ":" = Some (String.length name)
  end.
Proof.
  induction s as [|c s IH]; [done|].
  cbn [split_colon Str.find]. destruct (Ascii.eqb_spec c ":") as [->|Hc].
  - done.
  - destruct (split_colon s) as [[name rest]|].
    + destruct IH as [-> ->]. by rewrite app_cons.
    + by rewrite IH.
Qed.

Lemma take_app_length (s t : string) : Str.take (String.length s) (s +:+ t) = s.
Proof.
  induction s as [|c s IH]; [by destruct t|].
  rewrite app_cons. simpl. by rewrite IH.
Qed.

Lemma take_remove_last (s : string) :
  Str.take (Nat.pred (String.length s)) s = remove_last s.
Proof.
  induction s as [|c s IH]; [done|].
  destruct s as [|c' s]; [done|].
  change (Str.take (Nat.pred (String.length (String c (String c' s))))
            (String c (String c' s)))
    with (String c (Str.take (Nat.pred (String.length (String c' s)))
                      (String c' s))).
  by rewrite IH.
Qed.

(** The two [substr] of the header loop on a line with a colon. *)
Lemma header_substr (name rest : string) :
  Str.size (name +:+ String ":" rest) + 1 < Str.size_mod →
  let line := name +:+ String ":" rest in
  let colonPos := Z.of_nat (String.length name) in
  Str.substr line 0 colonPos = Returns name
  ∧ Str.substr line (Str.wrap (colonPos + 2))
      (Str.wrap (Str.size line - colonPos - 3))
    = match rest with
      | "" => Throws out_of_range
      | String _ rest' => Returns (remove_last rest')
      end.
Proof.
  intros Hsize line colonPos. subst line colonPos.
  unfold Str.size in *. rewrite length_app in *. simpl String.length in *.
  split.
  - unfold Str.substr, Str.size.
    destruct (Z.ltb_spec (Z.of_nat (String.length (name +:+ String ":" rest))) 0)
      as [?|_]; [lia|].
    rewrite length_app. simpl String.length.
    rewrite Z.min_l by lia. rewrite Nat2Z.id. simpl Str.drop.
    by rewrite take_app_length.
  - unfold Str.wrap, Str.size_mod in *.
    rewrite (Z.mod_small (_ + 2)) by lia.
    destruct rest as [|c rest].
    + apply substr_throws. unfold Str.size. rewrite length_app. simpl. lia.
    + unfold Str.substr, Str.size. rewrite length_app. simpl String.length.
      destruct (Z.ltb_spec
                  (Z.of_nat (String.length name + S (S (String.length rest))))
                  (Z.of_nat (String.length name) + 2)) as [?|_]; [lia|].
      f_equal.
      replace (Z.to_nat (Z.of_nat (String.length name) + 2))
        with (String.length (name +:+ String ":" (String c "")))
        by (rewrite length_app; simpl; lia).
      change (name +:+ String ":" (String c rest))
        with (name +:+ (String ":" (String c "") +:+ rest)).
      rewrite <- app_assoc, drop_app_length.
      rewrite <- take_remove_last. f_equal.
      destruct rest as [|c' rest].
      * simpl.
        pose proof (Z.mod_pos_bound
          (Z.of_nat (String.length name + 2)
           - Z.of_nat (String.length name) - 3) (2 ^ 64) eq_refl) as Hmod.
        revert Hmod. generalize ((Z.of_nat (String.length name + 2)
           - Z.of_nat (String.length name) - 3) `mod` 2 ^ 64). lia.
      * simpl String.length in *.
        rewrite Z.mod_small by lia. simpl Nat.pred. lia.
Qed.

(** The header loop against the pending lines: it throws when a line of
    the head is broken, and otherwise collects the headers of the head and
    leaves the lines of the body pending. *)
Lemma header_loop_pending (fuel : nat) (stream : istringstream)
    (line : string) (headers : gmap string string) :
  (String.length (rdbuf stream) < fuel)%nat →
  Forall (λ l, Str.size l + 1 < Str.size_mod) (pending stream) →
  if existsb is_broken (head_section (pending stream))
  then header_loop fuel stream line headers = Throws out_of_range
  else ∃ stream' line',
      header_loop fuel stream line headers
      = Returns (stream', line',
                 foldl add_header headers (head_section (pending stream)))
      ∧ pending stream' = body_section (pending stream).
Proof.
  revert stream line headers.
  induction fuel as [|fuel IH]; intros stream line headers Hfuel Hsizes; [lia|].
  cbn [header_loop]. pose proof (getline_pending stream line) as Hget.
  destruct (getline stream line) as [stream' line'] eqn:Hline.
  destruct (pending stream) as [|l ls]; simpl in Hget.
  - rewrite Hget. simpl. eexists _, _. split; [done|].
    unfold pending, good. rewrite Hget. by rewrite andb_false_r.
  - destruct Hget as (stream'' & [= <- <-] & Hfail & Hpending).
    rewrite Hfail. cbn [head_section body_section negb andb].
    pose proof (getline_progress _ _ _ _ Hline Hfail) as Hlt.
    apply Forall_cons in Hsizes as [Hsize Hsizes].
    specialize (IH stream' line').
    rewrite Hpending in IH.
    case_bool_decide as Hcr; cbn [negb existsb foldl].
    { eauto. }
    pose proof (split_colon_spec line') as Hsplit.
    unfold add_header, is_broken, classify.
    destruct (split_colon line') as [[name rest]|].
    + destruct Hsplit as [-> ->].
      destruct (header_substr name rest Hsize) as [-> ->].
      cbn [mbind outcome_bind].
      destruct rest as [|c rest]; cbn [mbind outcome_bind orb]; [done|].
      apply IH; [lia|done].
    + rewrite Hsplit. cbn [orb]. apply IH; [lia|done].
Qed.

Lemma words_space (c : ascii) (s : string) :
  isspace c = true → words (String c s) = words s.
Proof.
  intros Hc. unfold words. cbn [words_go].
  destruct (words_go s) as [w ws]. by rewrite Hc.
Qed.

Lemma words_skipws (s : string) : words (skipws s) = words s.
Proof.
  induction s as [|c s IH]; [done|].
  cbn [skipws]. destruct (isspace c) eqn:Hc; [|done].
  by rewrite words_space.
Qed.

Lemma skipws_cases (s : string) :
  skipws s = "" ∨ ∃ c s', skipws s = String c s' ∧ isspace c = false.
Proof.
  induction s as [|c s IH]; [by left|].
  cbn [skipws]. destruct (isspace c) eqn:Hc; eauto.
Qed.

Lemma read_word_words_go (s : string) :
  ∃ w rest, read_word s = (w, rest) ∧ words_go s = (w, words rest).
Proof.
  induction s as [|c s (w & rest & Hread & Hgo)].
  - by exists "", "".
  - cbn [read_word words_go]. destruct (isspace c) eqn:Hc.
    + exists "", (String c s). split; [done|].
      unfold words. cbn [words_go]. rewrite Hc.
      by destruct (words_go s).
    + rewrite Hread, Hgo. eauto.
Qed.

Lemma pending_words_failed (stream : istringstream) :
  failbit stream = true → pending_words stream = [].
Proof.
  intros Hfail. unfold pending_words, good.
  by rewrite Hfail, andb_false_r.
Qed.

(** An extraction into an empty string delivers the first pending word,
    and leaves the string empty when no word is left. *)
Lemma extract_pending_words (stream : istringstream) :
  ∃ stream',
    extract stream "" = (stream', default "" (head (pending_words stream)))
    ∧ pending_words stream' = tail (pending_words stream).
Proof.
  assert (pending_words stream
          = if good stream then words (rdbuf stream) else []) as -> by done.
  unfold extract. destruct (good stream).
  2:{ eexists. split; [done|]. by apply pending_words_failed. }
  rewrite <- (words_skipws (rdbuf stream)).
  destruct (skipws_cases (rdbuf stream)) as [->|(c & s & -> & Hc)].
  { eexists. split; [done|]. by apply pending_words_failed. }
  destruct (read_word_words_go (String c s)) as (w & rest & Hread & Hgo).
  rewrite Hread.
  cbn [read_word] in Hread. rewrite Hc in Hread.
  destruct (read_word s) as [w' rest']. injection Hread as <- <-.
  assert (words (String c s) = String c w' :: words rest') as ->.
  { unfold words at 1. by rewrite Hgo. }
  eexists. split; [done|]. unfold pending_words, good. simpl.
  case_bool_decide as Hrest; [by rewrite Hrest|done].
Qed.

Lemma request_line_fields (line : string) :
  ∃ requestLine1 requestLine2 requestLine3,
    extract (istringstream_new line) "" = (requestLine1, request_line_field line 0)
    ∧ extract requestLine1 "" = (requestLine2, request_line_field line 1)
    ∧ extract requestLine2 "" = (requestLine3, request_line_field line 2).
Proof.
  unfold request_line_field.
  destruct (extract_pending_words (istringstream_new line)) as (r1 & H1 & P1).
  destruct (extract_pending_words r1) as (r2 & H2 & P2).
  destruct (extract_pending_words r2) as (r3 & H3 & P3).
  exists r1, r2, r3. rewrite H1, H2, H3, P2, P1.
  change (pending_words (istringstream_new line)) with (words line).
  by destruct (words line) as [|? [|? [|? ?]]].
Qed.

Lemma getlines_length (s l : string) :
  l ∈ getlines s → (String.length l ≤ String.length s)%nat.
Proof.
  revert l. induction s as [|c s IH]; intros l; cbn [getlines].
  - by intros ?%elem_of_nil.
  - destruct (Ascii.eqb c LF).
    + intros [->|Hl]%elem_of_cons; simpl; [lia|].
      specialize (IH l Hl). lia.
    + destruct (getlines s) as [|l' ls].
      * intros [->|?%elem_of_nil]%elem_of_cons; [simpl; lia|done].
      * intros [->|Hl]%elem_of_cons.
        -- specialize (IH l' (list_elem_of_here _ _)). simpl. lia.
        -- specialize (IH l (list_elem_of_further _ _ _ Hl)). simpl. lia.
Qed.

Lemma getlines_tail_length (s l : string) :
  l ∈ tail (getlines s) → (String.length l < String.length s)%nat.
Proof.
  destruct s as [|c s]; [by intros ?%elem_of_nil|].
  destruct (read_until_getlines c s) as (l0 & rest & found & Hread & -> & Hrest).
  simpl tail. intros Hl.
  apply read_until_length in Hread.
  destruct found.
  - apply getlines_length in Hl. lia.
  - destruct Hrest as [-> _]; [done|]. by apply elem_of_nil in Hl.
Qed.

(** The constructor, read off the lines of the text. *)
Lemma Request_new_lines (requestText : string) :
  Str.size requestText < Str.size_mod →
  Request.new requestText
  = if existsb is_broken (head_section (tail (getlines requestText)))
    then Throws out_of_range
    else Returns
      {| method := request_line_field (default "" (head (getlines requestText))) 0;
         path := request_line_field (default "" (head (getlines requestText))) 1;
         httpVersion :=
           request_line_field (default "" (head (getlines requestText))) 2;
         headers := parsed_headers (head_section (tail (getlines requestText)));
         body := parsed_body (body_section (tail (getlines requestText))) |}.
Proof.
  intros Hsize. destruct requestText as [|c s]; [done|].
  assert (Forall (λ l, Str.size l + 1 < Str.size_mod)
            (tail (getlines (String c s)))) as Hsizes.
  { apply Forall_forall. intros l Hl%getlines_tail_length.
    unfold Str.size in *. lia. }
  unfold Request.new. cbv zeta.
  pose proof (getline_pending (istringstream_new (String c s)) "") as Hget.
  change (pending (istringstream_new (String c s)))
    with (getlines (String c s)) in Hget.
  destruct (read_until_getlines c s) as (l & rest & found & _ & Hlines & _).
  rewrite Hlines in *. simpl head. simpl tail in *. simpl default.
  destruct Hget as (stream & -> & Hfail & Hpending).
  destruct (request_line_fields l) as (r1 & r2 & r3 & -> & -> & ->).
  pose proof (header_loop_pending (loop_fuel stream) stream l ∅) as Hloop.
  rewrite Hpending in Hloop.
  destruct (existsb is_broken (head_section (getlines rest))).
  - rewrite Hloop; [done|unfold loop_fuel; lia|done].
  - destruct Hloop as (stream' & line' & -> & Hbody);
      [unfold loop_fuel; lia|done|].
    cbn [mbind outcome_bind].
    destruct (body_loop_pending (loop_fuel stream') stream' "" "")
      as (stream'' & bodyContent & ->); [unfold loop_fuel; lia|].
    cbn [mbind outcome_bind]. by rewrite Hbody.
Qed.

End lines_of_a_request.

(** ** Requests as they are written *)

Section rendered_requests.

Import Request.

Lemma getlines_no_LF (s : string) :
  Str.occurs LF s = false → getlines s = if s is "" then [] else [s].
Proof.
  induction s as [|c s IH]; [done|].
  cbn [Str.occurs getlines]. intros [-> Hs]%orb_false_iff.
  rewrite IH by done. by destruct s.
Qed.

Lemma getlines_line (l rest : string) :
  Str.occurs LF l = false → getlines (l +:+ String LF rest) = l :: getlines rest.
Proof.
  induction l as [|c l IH].
  - intros _. rewrite app_nil_l. cbn [getlines]. by rewrite Ascii.eqb_refl.
  - rewrite app_cons. cbn [Str.occurs getlines].
    intros [-> Hl]%orb_false_iff. by rewrite IH.
Qed.

(** The lines of a text, each with its line feed: the text itself, closed
    by a line feed when it is not. *)
Lemma parsed_body_getlines (sent : string) :
  parsed_body (getlines sent) = terminated sent.
Proof.
  remember (String.length sent) as n eqn:Hn.
  revert sent Hn. induction n as [n IH] using lt_wf_ind. intros sent ->.
  destruct (first_split LF sent) as [Hsent|(l & rest & -> & Hl)].
  - rewrite getlines_no_LF by done. unfold terminated.
    rewrite ends_with_absent by done.
    destruct sent; [done|]. simpl. by rewrite app_nil_r.
  - rewrite getlines_line, terminated_line by done. cbn [parsed_body].
    rewrite (IH (String.length rest)); [done| |done].
    rewrite length_app. simpl. lia.
Qed.

Lemma words_blank (s : string) : all_space s = true → words s = [].
Proof.
  induction s as [|c s IH]; [done|].
  cbn [all_space]. intros [Hc Hs]%andb_true_iff.
  rewrite words_space by done. auto.
Qed.

Lemma words_go_end (s : string) :
  word_end s = true → words_go s = ("", words s).
Proof.
  destruct s as [|c s]; [done|]. cbn [word_end]. intros Hc.
  unfold words. cbn [words_go]. destruct (words_go s). by rewrite Hc.
Qed.

Lemma words_go_word (w rest : string) :
  no_space w = true → word_end rest = true →
  words_go (w +:+ rest) = (w, words rest).
Proof.
  intros Hw Hrest. induction w as [|c w IH].
  - rewrite app_nil_l. by apply words_go_end.
  - cbn [no_space] in Hw. apply andb_true_iff in Hw as [Hc Hw].
    rewrite app_cons. cbn [words_go]. rewrite IH by done.
    by destruct (isspace c).
Qed.

Lemma words_word (ws w rest : string) :
  all_space ws = true → no_space w = true → w ≠ "" → word_end rest = true →
  words (ws +:+ w +:+ rest) = w :: words rest.
Proof.
  intros Hws Hw Hne Hrest. induction ws as [|c ws IH].
  - rewrite app_nil_l. unfold words at 1. rewrite words_go_word by done.
    by destruct w.
  - cbn [all_space] in Hws. apply andb_true_iff in Hws as [Hc Hws].
    rewrite app_cons, words_space by done. auto.
Qed.

(** The words of a text are not empty and hold no white space. *)
Lemma words_no_space (s w : string) :
  w ∈ words s → no_space w = true ∧ w ≠ "".
Proof.
  revert w.
  assert (∀ w, (w ∈ (words_go s).2 → no_space w = true ∧ w ≠ "")
               ∧ no_space (words_go s).1 = true) as Hgo.
  { induction s as [|c s IH]; intros w.
    - split; [by intros ?%elem_of_nil|done].
    - cbn [words_go]. destruct (words_go s) as [w' ws] eqn:Hs.
      simpl in IH. destruct (isspace c) eqn:Hc; simpl.
      + split; [|done]. destruct w' as [|c' w'].
        * apply IH.
        * intros [->|Hw]%elem_of_cons; [|by apply IH].
          split; [apply (IH "")|done].
      + split; [apply IH|]. rewrite Hc. apply (IH ""). }
  intros w. unfold words. destruct (words_go s) as [w' ws] eqn:Hs.
  simpl in Hgo. destruct w' as [|c' w'].
  - apply Hgo.
  - intros [->|Hw]%elem_of_cons; [|by apply Hgo].
    split; [apply (Hgo "")|done].
Qed.

Lemma split_colon_app (name rest : string) :
  Str.occurs ":" name = false →
  split_colon (name +:+ String ":" rest) = Some (name, rest).
Proof.
  induction name as [|c name IH].
  - intros _. by rewrite app_nil_l.
  - rewrite app_cons. cbn [Str.occurs split_colon].
    intros [-> Hname]%orb_false_iff. by rewrite IH.
Qed.

Lemma split_colon_absent (s : string) :
  Str.occurs ":" s = false → split_colon s = None.
Proof.
  induction s as [|c s IH]; [done|].
  cbn [Str.occurs split_colon]. intros [-> Hs]%orb_false_iff. by rewrite IH.
Qed.

Lemma split_colon_name (s name rest : string) :
  split_colon s = Some (name, rest) →
  s = name +:+ String ":" rest ∧ Str.occurs ":" name = false.
Proof.
  revert name. induction s as [|c s IH]; intros name; [done|].
  cbn [split_colon]. destruct (Ascii.eqb_spec c ":") as [->|Hc].
  - by intros [= <- <-].
  - destruct (split_colon s) as [[name' rest']|]; [|done].
    intros [= <- <-]. destruct (IH name' eq_refl) as [-> Hname].
    split; [done|]. cbn [Str.occurs]. rewrite Hname.
    by destruct (Ascii.eqb_spec c ":").
Qed.

(** A line is broken when it ends with its first colon. *)
Lemma is_broken_spec (line : string) :
  is_broken line = true
  ↔ ∃ name, line = name +:+ ":" ∧ Str.occurs ":" name = false.
Proof.
  unfold is_broken, classify. split.
  - destruct (split_colon line) as [[name rest]|] eqn:Hsplit; [|done].
    destruct rest; [|done]. intros _. exists name.
    by apply split_colon_name.
  - intros (name & -> & Hname). by rewrite split_colon_app.
Qed.

Lemma remove_last_app (s : string) (c : ascii) :
  remove_last (s +:+ String c "") = s.
Proof.
  induction s as [|a s IH]; [done|].
  rewrite app_cons. cbn [remove_last]. rewrite IH.
  by destruct s.
Qed.

Lemma item_ok_not_blank (item : head_item) :
  item_ok item = true → render_item item ≠ String CR "".
Proof.
  destruct item as [name sep value last|name only|text]; simpl.
  - intros _. destruct name as [|? [|??]]; [|by destruct value|done].
    rewrite app_nil_l. by destruct value.
  - intros _. by destruct name as [|? [|??]].
  - intros [_ H]%andb_true_iff. by case_bool_decide.
Qed.

Lemma item_ok_no_LF (item : head_item) :
  item_ok item = true → Str.occurs LF (render_item item) = false.
Proof.
  destruct item as [name sep value last|name only|text]; simpl;
    rewrite !andb_true_iff, !negb_true_iff.
  - intros [[[[_ Hname] Hsep] Hvalue] Hlast].
    change (":" +:+ String sep (value +:+ String last ""))
      with (String ":" (String sep (value +:+ String last ""))).
    rewrite occurs_app, Hname. cbn [Str.occurs orb].
    rewrite occurs_app, Hvalue. cbn [Str.occurs].
    by rewrite Hsep, Hlast.
  - intros [[_ Hname] Honly].
    change (":" +:+ String only "") with (String ":" (String only "")).
    rewrite occurs_app, Hname. cbn [Str.occurs orb]. by rewrite Honly.
  - by intros [[_ Htext] _].
Qed.

Lemma item_ok_classify (item : head_item) :
  item_ok item = true →
  classify (render_item item)
  = match item_entry item with
    | Some (name, value) => Entry name value
    | None => Skipped
    end.
Proof.
  destruct item as [name sep value last|name only|text]; simpl;
    rewrite !andb_true_iff, !negb_true_iff; unfold classify.
  - intros [[[[Hname _] _] _] _].
    change (":" +:+ String sep (value +:+ String last ""))
      with (String ":" (String sep (value +:+ String last ""))).
    by rewrite split_colon_app, remove_last_app.
  - intros [[Hname _] _].
    change (":" +:+ String only "") with (String ":" (String only "")).
    by rewrite split_colon_app.
  - intros [[Htext _] _]. by rewrite split_colon_absent.
Qed.

Lemma getlines_head (items : list head_item) (behind : string) :
  forallb item_ok items = true →
  getlines (render_head items +:+ behind)
  = map render_item items ++ getlines behind.
Proof.
  induction items as [|item items IH]; [done|].
  cbn [forallb render_head map]. intros [Hitem Hitems]%andb_true_iff.
  rewrite !app_assoc.
  change (nl +:+ render_head items +:+ behind)
    with (String LF (render_head items +:+ behind)).
  rewrite getlines_line by by apply item_ok_no_LF.
  by rewrite IH.
Qed.

Lemma head_section_items (items : list head_item) (ls : list string) :
  forallb item_ok items = true →
  head_section (map render_item items ++ String CR "" :: ls)
  = map render_item items
  ∧ body_section (map render_item items ++ String CR "" :: ls) = ls
  ∧ head_section (map render_item items) = map render_item items
  ∧ body_section (map render_item items) = [].
Proof.
  induction items as [|item items IH].
  - intros _. cbn [map app head_section body_section].
    by rewrite bool_decide_eq_true_2.
  - cbn [forallb map]. intros [Hitem Hitems]%andb_true_iff.
    destruct (IH Hitems) as (IH1 & IH2 & IH3 & IH4).
    rewrite <- app_comm_cons. cbn [head_section body_section].
    rewrite bool_decide_eq_false_2 by by apply item_ok_not_blank.
    by rewrite IH1, IH2, IH3, IH4.
Qed.

Lemma items_not_broken (items : list head_item) :
  forallb item_ok items = true →
  existsb is_broken (map render_item items) = false.
Proof.
  induction items as [|item items IH]; [done|].
  cbn [forallb map existsb]. intros [Hitem Hitems]%andb_true_iff.
  rewrite IH by done. unfold is_broken.
  rewrite item_ok_classify by done.
  by destruct (item_entry item) as [[??]|].
Qed.

Lemma items_headers (items : list head_item) (headers : gmap string string) :
  forallb item_ok items = true →
  foldl add_header headers (map render_item items)
  = foldl store_entry headers items.
Proof.
  revert headers. induction items as [|item items IH]; intros headers; [done|].
  cbn [forallb map foldl]. intros [Hitem Hitems]%andb_true_iff.
  rewrite IH by done. f_equal. unfold add_header, store_entry.
  rewrite item_ok_classify by done.
  by destruct (item_entry item) as [[??]|].
Qed.

(** The three fields of a request are those of its first line, whatever
    follows. *)
Lemma Request_new_fields (requestText : string) (request : Request.t) :
  Request.new requestText = Returns request →
  let line := default "" (head (getlines requestText)) in
  method request = request_line_field line 0
  ∧ path request = request_line_field line 1
  ∧ httpVersion request = request_line_field line 2.
Proof.
  destruct requestText as [|c s]; [by intros [= <-]|].
  unfold Request.new. cbv zeta.
  pose proof (getline_pending (istringstream_new (String c s)) "") as Hget.
  change (pending (istringstream_new (String c s)))
    with (getlines (String c s)) in Hget.
  destruct (read_until_getlines c s) as (l & rest & found & _ & Hlines & _).
  rewrite Hlines in *. simpl head. simpl default.
  destruct Hget as (stream & -> & _ & _).
  destruct (request_line_fields l) as (r1 & r2 & r3 & -> & -> & ->).
  destruct (header_loop _ _ _ _) as [[[stream' line'] headers]| |];
    cbn [mbind outcome_bind]; [|done..].
  destruct (body_loop _ _ _ _) as [[[stream'' line''] body]| |];
    cbn [mbind outcome_bind]; [|done..].
  by intros [= <-].
Qed.

Lemma Request_new_items (requestLine : string) (items : list head_item)
    (sent : string) :
  Str.occurs LF requestLine = false →
  forallb item_ok items = true →
  Str.size (requestLine +:+ nl +:+ render_head items +:+ CRLF +:+ sent)
  < Str.size_mod →
  Request.new (requestLine +:+ nl +:+ render_head items +:+ CRLF +:+ sent)
  = Returns {| method := request_line_field requestLine 0;
               path := request_line_field requestLine 1;
               httpVersion := request_line_field requestLine 2;
               headers := foldl store_entry ∅ items;
               body := terminated sent |}.
Proof.
  intros Hline Hitems Hsize. rewrite Request_new_lines by done.
  change (nl +:+ render_head items +:+ CRLF +:+ sent)
    with (String LF (render_head items +:+ CRLF +:+ sent)).
  rewrite getlines_line by done. simpl head. simpl tail. simpl default.
  rewrite getlines_head by done.
  change (CRLF +:+ sent) with (String CR "" +:+ String LF sent).
  rewrite getlines_line by done.
  destruct (head_section_items items (getlines sent) Hitems) as (-> & -> & _).
  rewrite items_not_broken by done.
  unfold parsed_headers. by rewrite items_headers, parsed_body_getlines.
Qed.

Lemma Request_new_items_only (requestLine : string) (items : list head_item) :
  Str.occurs LF requestLine = false →
  forallb item_ok items = true →
  Str.size (requestLine +:+ nl +:+ render_head items) < Str.size_mod →
  Request.new (requestLine +:+ nl +:+ render_head items)
  = Returns {| method := request_line_field requestLine 0;
               path := request_line_field requestLine 1;
               httpVersion := request_line_field requestLine 2;
               headers := foldl store_entry ∅ items;
               body := "" |}.
Proof.
  intros Hline Hitems Hsize. rewrite Request_new_lines by done.
  change (nl +:+ render_head items) with (String LF (render_head items)).
  rewrite getlines_line by done. simpl head. simpl tail. simpl default.
  rewrite <- (app_nil_r (render_head items)), getlines_head by done.
  cbn [getlines]. rewrite List.app_nil_r.
  destruct (head_section_items items [] Hitems) as (_ & _ & -> & ->).
  rewrite items_not_broken by done.
  unfold parsed_headers. by rewrite items_headers.
Qed.

End rendered_requests.

(** ** Requests in the usual form *)

Section usual_requests.

Lemma no_space_no_LF (s : string) : no_space s = true → Str.occurs LF s = false.
Proof.
  induction s as [|c s IH]; [done|].
  cbn [no_space Str.occurs]. intros [Hc Hs]%andb_true_iff.
  rewrite IH by done. destruct (Ascii.eqb_spec c LF) as [->|]; by simplify_eq/=.
Qed.

Lemma words_three (m p v : string) :
  no_space m = true → m ≠ "" → no_space p = true → p ≠ "" →
  no_space v = true → v ≠ "" →
  words (m +:+ " " +:+ p +:+ " " +:+ v +:+ String CR "") = [m; p; v].
Proof.
  intros Hm ? Hp ? Hv ?.
  rewrite <- (app_nil_l (m +:+ _)), words_word by done.
  rewrite (words_word " " p) by done.
  rewrite (words_word " " v) by done.
  done.
Qed.

Lemma render_headers_items (hs : list (string * string)) :
  render_headers hs
  = render_head (map (λ h, Header h.1 " " h.2 CR) hs).
Proof.
  induction hs as [|[name value] hs IH]; [done|].
  cbn [render_headers render_head map render_item fst snd]. rewrite IH.
  set (behind := render_head _).
  rewrite (app_assoc name). f_equal.
  change (String ":" (String " " (value +:+ (CRLF +:+ behind)))
          = String ":" (String " " ((value +:+ String CR "") +:+ (nl +:+ behind)))).
  by rewrite app_assoc.
Qed.

Lemma headers_ok_items (hs : list (string * string)) :
  forallb header_ok hs = true →
  forallb item_ok (map (λ h, Header h.1 " " h.2 CR) hs) = true.
Proof.
  induction hs as [|[name value] hs IH]; [done|].
  cbn [forallb map]. intros [Hh Hhs]%andb_true_iff.
  rewrite IH by done. unfold header_ok in Hh. simpl in *.
  apply andb_true_iff in Hh as [[-> ->]%andb_true_iff ->]. done.
Qed.

(** Storing the headers one after the other gives the map of the list in
    which a later pair wins. *)
Lemma store_entries (hs : list (string * string)) :
  foldl store_entry ∅ (map (λ h, Header h.1 " " h.2 CR) hs)
  = list_to_map (reverse hs).
Proof.
  induction hs as [|[name value] hs IH] using rev_ind; [done|].
  rewrite map_app, foldl_app, reverse_app, IH. done.
Qed.

End usual_requests.

(** ** What the constructor of [Request] makes of a text *)

Section request_contract.

Import Request.

(** X1. The method, the path and the version of a request are the first
    three words of the first line of the text, and empty where the line has
    no such word; words are the runs of characters between white space:
    a text of white space has none, and a text that starts, after white
    space, with a word [w] ending at white space or at the end of the text
    has [w] as its first word. *)
Theorem X1_request_line_words :
  (∀ line rest request,
      Str.occurs LF line = false →
      Request.new (line +:+ nl +:+ rest) = Returns request →
      method request = default "" (words line !! 0%nat)
      ∧ path request = default "" (words line !! 1%nat)
      ∧ httpVersion request = default "" (words line !! 2%nat))
  ∧ (∀ line request,
        Str.occurs LF line = false →
        Request.new line = Returns request →
        method request = default "" (words line !! 0%nat)
        ∧ path request = default "" (words line !! 1%nat)
        ∧ httpVersion request = default "" (words line !! 2%nat))
  ∧ (∀ s, all_space s = true → words s = [])
  ∧ (∀ ws w rest,
        all_space ws = true → no_space w = true → w ≠ "" →
        word_end rest = true →
        words (ws +:+ w +:+ rest) = w :: words rest).
Proof.
  split; [|split; [|split; [exact words_blank|exact words_word]]].
  - intros line rest request Hline Hnew.
    apply Request_new_fields in Hnew. revert Hnew.
    change (nl +:+ rest) with (String LF rest).
    by rewrite getlines_line.
  - intros line request Hline Hnew.
    apply Request_new_fields in Hnew. revert Hnew.
    rewrite getlines_no_LF by done. by destruct line.
Qed.

(** X2. The method, the path and the version of a request the constructor
    returns hold no white space: no blank, tab, carriage return or line
    feed. *)
Theorem X2_request_fields_without_space requestText request :
  Request.new requestText = Returns request →
  no_space (method request) = true
  ∧ no_space (path request) = true
  ∧ no_space (httpVersion request) = true.
Proof.
  intros (-> & -> & ->)%Request_new_fields.
  assert (∀ line i, no_space (request_line_field line i) = true) as Hfield.
  { intros line i. unfold request_line_field.
    destruct (words line !! i) as [w|] eqn:Hw; [|done].
    apply list_elem_of_lookup_2 in Hw. by apply words_no_space in Hw as [? _]. }
  by rewrite !Hfield.
Qed.

(** X3. On a text whose size is a [size_t], the constructor throws
    [std::out_of_range] exactly when one of the lines of the head, the lines
    behind the first one and before the first line that is a lone carriage
    return, ends with its first colon. *)
Theorem X3_constructor_throws_iff_broken_line requestText :
  Str.size requestText < Str.size_mod →
  Request.new requestText = Throws out_of_range
  ↔ ∃ line name,
      line ∈ head_section (tail (getlines requestText))
      ∧ line = name +:+ ":" ∧ Str.occurs ":" name = false.
Proof.
  intros Hsize. rewrite Request_new_lines by done.
  destruct (existsb _ _) eqn:Hbroken.
  - split; [intros _|done].
    apply existsb_exists in Hbroken as (line & Hin & Hline).
    apply is_broken_spec in Hline as (name & -> & Hname).
    exists (name +:+ ":"), name. by rewrite list_elem_of_In.
  - split; [done|]. intros (line & name & Hin & -> & Hname).
    assert (existsb is_broken (head_section (tail (getlines requestText)))
            = true) as Hex; [|congruence].
    apply existsb_exists. exists (name +:+ ":").
    rewrite <- list_elem_of_In. split; [done|].
    apply is_broken_spec. eauto.
Qed.

(** X4. On a text whose size is a [size_t], the constructor amounts to a
    reading of the lines of the text: it throws when a line of the head is
    broken, and otherwise returns the words of the first line as method,
    path and version, the headers of the lines of the head, a later one
    replacing an earlier one of the same name, and as body the lines behind
    the first lone carriage return, each followed by a line feed. *)
Theorem X4_constructor_reads_lines requestText :
  Str.size requestText < Str.size_mod →
  Request.new requestText
  = if existsb is_broken (head_section (tail (getlines requestText)))
    then Throws out_of_range
    else Returns
      {| method := request_line_field (default "" (head (getlines requestText))) 0;
         path := request_line_field (default "" (head (getlines requestText))) 1;
         httpVersion :=
           request_line_field (default "" (head (getlines requestText))) 2;
         headers := parsed_headers (head_section (tail (getlines requestText)));
         body := parsed_body (body_section (tail (getlines requestText))) |}.
Proof. apply Request_new_lines. Qed.

(** X5. A head of lines that are headers with any character behind the
    colon and any character at the end, headers with a single character
    behind the colon, or lines without colon other than a lone carriage
    return: the constructor stores, in the order of the lines, the name of
    each header with what stands between the character behind the colon and
    the last character of the line (nothing for a single character), and
    passes over the lines without colon; the body is the text behind the
    empty line, closed by a line feed. *)
Theorem X5_head_lines_stored requestLine items sent :
  Str.occurs LF requestLine = false →
  forallb item_ok items = true →
  Str.size (requestLine +:+ nl +:+ render_head items +:+ CRLF +:+ sent)
  < Str.size_mod →
  Request.new (requestLine +:+ nl +:+ render_head items +:+ CRLF +:+ sent)
  = Returns {| method := default "" (words requestLine !! 0%nat);
               path := default "" (words requestLine !! 1%nat);
               httpVersion := default "" (words requestLine !! 2%nat);
               headers := foldl store_entry ∅ items;
               body := terminated sent |}.
Proof. apply Request_new_items. Qed.

(** The constructor on a request in the usual form. *)
Lemma Request_new_usual method path version hs sent :
  no_space method = true → method ≠ "" →
  no_space path = true → path ≠ "" →
  no_space version = true → version ≠ "" →
  forallb header_ok hs = true →
  Str.size (render_request method path version hs sent) < Str.size_mod →
  Request.new (render_request method path version hs sent)
  = Returns {| Request.method := method; Request.path := path;
               httpVersion := version;
               headers := list_to_map (reverse hs);
               body := terminated sent |}.
Proof.
  intros Hm ? Hp ? Hv ? Hhs Hsize.
  assert (render_request method path version hs sent
          = (method +:+ " " +:+ path +:+ " " +:+ version +:+ String CR "")
            +:+ nl
            +:+ render_head (map (λ h, Header h.1 " " h.2 CR) hs)
            +:+ CRLF +:+ sent) as Hrender.
  { unfold render_request. rewrite render_headers_items, !app_assoc.
    reflexivity. }
  rewrite Hrender in *.
  rewrite Request_new_items; [|  |by apply headers_ok_items|done].
  - unfold request_line_field. rewrite words_three by done.
    by rewrite store_entries.
  - rewrite !occurs_app, (no_space_no_LF method), (no_space_no_LF path),
      (no_space_no_LF version) by done.
    reflexivity.
Qed.

(** X6. A request in the usual form, lines closed by carriage return and
    line feed, headers written [name: value], comes back as it was written:
    method, path and version as given (words without white space), the
    headers as the map of the pairs in which a later pair of the same name
    wins, and the body, closed by a line feed when it is neither empty nor
    closed by one.  Names hold no colon and no line feed, values no line
    feed. *)
Theorem X6_request_round_trip method path version hs sent :
  no_space method = true → method ≠ "" →
  no_space path = true → path ≠ "" →
  no_space version = true → version ≠ "" →
  forallb header_ok hs = true →
  Str.size (render_request method path version hs sent) < Str.size_mod →
  Request.new (render_request method path version hs sent)
  = Returns {| Request.method := method; Request.path := path;
               httpVersion := version;
               headers := list_to_map (reverse hs);
               body := terminated sent |}.
Proof. apply Request_new_usual. Qed.

(** X7. Without a line that is a lone carriage return the request has no
    body: a text that ends with its head gives the headers of the head and
    the empty body. *)
Theorem X7_no_empty_line_no_body requestLine items :
  Str.occurs LF requestLine = false →
  forallb item_ok items = true →
  Str.size (requestLine +:+ nl +:+ render_head items) < Str.size_mod →
  Request.new (requestLine +:+ nl +:+ render_head items)
  = Returns {| method := default "" (words requestLine !! 0%nat);
               path := default "" (words requestLine !! 1%nat);
               httpVersion := default "" (words requestLine !! 2%nat);
               headers := foldl store_entry ∅ items;
               body := "" |}.
Proof. apply Request_new_items_only. Qed.

End request_contract.

(** ** More on routing *)

Section routing_contract.

Import RouteEntry Response RequestHandler.

Implicit Types (this : RequestHandler.t) (fs : filesystem)
  (request : Request.t) (route : RouteEntry.t).

(** The cases of the decision table: hypotheses taken apart, the route
    of the hypothesis identified with the route found. *)
Ltac status_goal :=
  intros;
  repeat first
    [ progress simplify_eq/=
    | match goal with
      | H : _ ∨ _ |- _ => destruct H
      | H : ∃ _, _ |- _ => destruct H
      | H : _ ∧ _ |- _ => destruct H
      | H : isFile ?r = true → _, H' : isFile ?r = true |- _ =>
          specialize (H H')
      end ];
  try congruence;
  try (by eauto 10);
  try (by eexists; split_and!; [done..|]; intros; congruence);
  try (by right; eauto 10);
  try (by left).

(** X8. What [handleRequest] does, decided: the read throws
    [std::ios_base::failure], and there is no response, exactly when the
    path has a file route that allows the method and whose file opens and
    cannot be read; it returns 405 exactly when the path has a route that
    does not allow the method; 200 exactly when the path has a route that
    allows the method and, for a file route, the file opens and is read;
    404 exactly when the path has no route, or has a file route that allows
    the method and whose file does not open.  Nothing else happens. *)
Theorem X8_status_decided this fs request :
  ((handleRequest fs request this).1 = Throws ios_failure
   ↔ ∃ route, routeLookUp this !! Request.path request = Some route
              ∧ Request.method request ∈ allowedMethods route
              ∧ isFile route = true
              ∧ fs (content route) = Some Unreadable)
  ∧ ((∃ response, (handleRequest fs request this).1 = Returns response
                  ∧ code response = 405)
     ↔ ∃ route, routeLookUp this !! Request.path request = Some route
                ∧ Request.method request ∉ allowedMethods route)
  ∧ ((∃ response, (handleRequest fs request this).1 = Returns response
                  ∧ code response = 200)
     ↔ ∃ route, routeLookUp this !! Request.path request = Some route
                ∧ Request.method request ∈ allowedMethods route
                ∧ (isFile route = true
                   → ∃ data, fs (content route) = Some (Readable data)))
  ∧ ((∃ response, (handleRequest fs request this).1 = Returns response
                  ∧ code response = 404)
     ↔ routeLookUp this !! Request.path request = None
       ∨ ∃ route, routeLookUp this !! Request.path request = Some route
                  ∧ Request.method request ∈ allowedMethods route
                  ∧ isFile route = true
                  ∧ fs (content route) = None)
  ∧ ((handleRequest fs request this).1 = Throws ios_failure
     ∨ ∃ response,
         (handleRequest fs request this).1 = Returns response
         ∧ (code response = 200 ∨ code response = 404 ∨ code response = 405)).
Proof.
  destruct (routeLookUp this !! Request.path request) as [route|] eqn:Hroute.
  - destruct (decide (Request.method request ∈ allowedMethods route)) as [Hm|Hm].
    + destruct (isFile route) eqn:Hfile.
      * destruct (fs (content route)) as [[data|]|] eqn:Hfs.
        -- destruct (handleRequest_file this fs request route data)
             as (type & _ & ->); auto.
           simpl. split_and!; try split; status_goal.
        -- erewrite handleRequest_file_unreadable by done.
           simpl. split_and!; try split; status_goal.
        -- erewrite handleRequest_file_missing by done.
           simpl. split_and!; try split; status_goal.
      * erewrite handleRequest_literal by done.
        simpl. split_and!; try split; status_goal.
    + erewrite handleRequest_method_not_allowed by done.
      simpl. split_and!; try split; status_goal.
  - rewrite handleRequest_unknown_path by done.
    simpl. split_and!; try split; status_goal.
Qed.

(** X9. The response and the handler left behind are decided by the
    method and the path of the request and by one file at most, the content
    of a file route found for the path and allowing the method: the
    version, the headers and the body of the request play no part, and
    where the path has no route or the method is not allowed the file
    system is not read. *)
Theorem X9_method_path_and_one_file this fs fs' request request' :
  Request.method request = Request.method request' →
  Request.path request = Request.path request' →
  (∀ route,
      routeLookUp this !! Request.path request = Some route →
      Request.method request ∈ allowedMethods route →
      isFile route = true →
      fs (content route) = fs' (content route)) →
  handleRequest fs request this = handleRequest fs' request' this.
Proof.
  intros Hmethod Hpath Hfs. unfold handleRequest.
  rewrite <- Hmethod, <- Hpath.
  destruct (routeLookUp this !! Request.path request) as [route|]; [|done].
  case_bool_decide as Hm; [done|].
  destruct (isFile route) eqn:Hfile; [|done].
  rewrite (Hfs route); [done..| |done].
  destruct (decide (Request.method request ∈ allowedMethods route)) as [|Hno];
    [done|].
  by apply std_find_end in Hno.
Qed.

(** X10. The content type of a response that [handleRequest] returns is
    one of six: the five of the table and the default; a response other
    than 200 is an HTML page, and so is the response of a route whose
    content is literal. *)
Theorem X10_content_types this fs request response :
  (handleRequest fs request this).1 = Returns response →
  contentType response ∈ ["text/html"; "image/jpeg"; "image/png";
                          "text/css"; "application/javascript";
                          "application/octet-stream"]
  ∧ (code response ≠ 200 → contentType response = "text/html")
  ∧ (∀ route, routeLookUp this !! Request.path request = Some route →
              isFile route = false → contentType response = "text/html").
Proof.
  destruct (routeLookUp this !! Request.path request) as [route|] eqn:Hroute.
  - destruct (decide (Request.method request ∈ allowedMethods route)) as [Hm|Hm].
    + destruct (isFile route) eqn:Hfile.
      * destruct (fs (content route)) as [[data|]|] eqn:Hfs.
        -- destruct (handleRequest_file this fs request route data)
             as (type & Htype & ->); auto.
           intros [= <-]. simpl. split; [|split; [done|]].
           ++ destruct (last_dot_split "." (content route))
                as [H|(pre & suf & Hname & H)].
              ** rewrite getContentType_no_dot in Htype by done.
                 injection Htype as <-. repeat constructor.
              ** rewrite Hname, getContentType_dot in Htype by done.
                 injection Htype as <-. unfold content_type_of_extension.
                 repeat case_decide; repeat constructor.
           ++ intros ? [= <-]. congruence.
        -- by erewrite handleRequest_file_unreadable by done.
        -- erewrite handleRequest_file_missing by done.
           intros [= <-]. simpl. repeat split; [constructor|done..].
      * erewrite handleRequest_literal by done.
        intros [= <-]. simpl. repeat split; [constructor|done..].
    + erewrite handleRequest_method_not_allowed by done.
      intros [= <-]. simpl. repeat split; [constructor|done..].
  - rewrite handleRequest_unknown_path by done.
    intros [= <-]. simpl. repeat split; [constructor|done..].
Qed.


End routing_contract.

(** ** Content types by the end of the name *)

Section content_type_contract.

Lemma last_dot_unique (pre pre' suf suf' : string) :
  pre +:+ String "." suf = pre' +:+ String "." suf' →
  Str.occurs "." suf = false → Str.occurs "." suf' = false →
  suf = suf'.
Proof.
  intros Heq Hsuf Hsuf'.
  pose proof (find_last_of_app pre suf "." Hsuf) as H1.
  pose proof (find_last_of_app pre' suf' "." Hsuf') as H2.
  rewrite Heq, H2 in H1. injection H1 as Hlen.
  pose proof (drop_app_length pre (String "." suf)) as D1.
  pose proof (drop_app_length pre' (String "." suf')) as D2.
  rewrite Heq, <- Hlen, D2 in D1. by injection D1 as ->.
Qed.

Lemma ends_in_extension (pre0 suf pre ext : string) :
  Str.occurs "." suf = false → Str.occurs "." ext = false →
  pre0 +:+ String "." suf = pre +:+ String "." ext →
  String "." suf = String "." ext.
Proof. intros ?? Heq. f_equal. by eapply last_dot_unique. Qed.

Lemma no_dot_no_extension (filename pre ext : string) :
  Str.occurs "." filename = false → filename ≠ pre +:+ String "." ext.
Proof.
  intros Hno ->. rewrite occurs_app in Hno. simpl in Hno.
  by rewrite orb_true_r in Hno.
Qed.

(** X12. The content type goes by the end of the file name: text/html
    exactly for the names that end with .html, image/jpeg for .jpg and
    .jpeg, image/png for .png, text/css for .css, application/javascript for
    .js; every other name gets application/octet-stream. *)
Theorem X12_content_type_by_suffix filename :
  ∃ type,
    getContentType filename = Returns type
    ∧ (type = "text/html" ↔ ∃ pre, filename = pre +:+ ".html")
    ∧ (type = "image/jpeg"
       ↔ (∃ pre, filename = pre +:+ ".jpg") ∨ (∃ pre, filename = pre +:+ ".jpeg"))
    ∧ (type = "image/png" ↔ ∃ pre, filename = pre +:+ ".png")
    ∧ (type = "text/css" ↔ ∃ pre, filename = pre +:+ ".css")
    ∧ (type = "application/javascript" ↔ ∃ pre, filename = pre +:+ ".js")
    ∧ (type = "application/octet-stream"
       ↔ ¬ ∃ pre ext, filename = pre +:+ ext
                      ∧ ext ∈ [".html"; ".jpg"; ".jpeg"; ".png"; ".css"; ".js"]).
Proof.
  destruct (last_dot_split "." filename) as [Hno|(pre0 & suf & -> & Hsuf)].
  - rewrite getContentType_no_dot by done. eexists. split; [done|].
    split_and!; split; try done.
    + intros [pre ->]. exfalso. by eapply no_dot_no_extension.
    + intros [[pre ->]|[pre ->]]; exfalso; by eapply no_dot_no_extension.
    + intros [pre ->]. exfalso. by eapply no_dot_no_extension.
    + intros [pre ->]. exfalso. by eapply no_dot_no_extension.
    + intros [pre ->]. exfalso. by eapply no_dot_no_extension.
    + intros _ (pre & ext & -> & Hext).
      repeat (apply elem_of_cons in Hext as [->|Hext];
              [by eapply no_dot_no_extension|]).
      by apply elem_of_nil in Hext.
  - rewrite getContentType_dot by done. eexists. split; [done|].
    assert (∀ pre ext, Str.occurs "." ext = false →
              pre0 +:+ String "." suf = pre +:+ String "." ext →
              String "." suf = String "." ext) as Hext.
    { intros pre ext ??. by eapply ends_in_extension. }
    unfold content_type_of_extension.
    split_and!; split.
    all: try (intros [pre Hpre%Hext]; [|done]).
    all: try (intros [[pre Hpre]|[pre Hpre]]; (apply Hext in Hpre; [|done])).
    all: try (intros Htype (pre & ext & Hpre & Hin);
              repeat (apply elem_of_cons in Hin as [->|Hin];
                      [apply Hext in Hpre; [|done]|]);
              [..|by apply elem_of_nil in Hin]).
    all: try (intros Hnone).
    all: repeat case_decide; simplify_eq; try done.
    all: try (by eexists).
    all: try (by left; eexists).
    all: try (by right; eexists).
    all: try (exfalso; apply Hnone; eexists pre0, _; split; [done|];
              repeat constructor).
Qed.

End content_type_contract.

(** ** Reading a response back *)

Section response_round_trip.

Import Response.

Lemma digits_no_space (d : Decimal.uint) :
  no_space (NilEmpty.string_of_uint d) = true.
Proof.
  induction d as [|d IH|d IH|d IH|d IH|d IH|d IH|d IH|d IH|d IH|d IH];
    [done|..]; cbn [NilEmpty.string_of_uint no_space]; by rewrite IH.
Qed.

Lemma put_int_no_space (n : Z) : no_space (put_int n) = true.
Proof.
  unfold put_int.
  destruct (Z.to_int n) as [d|d]; cbn [NilZero.string_of_int];
    [|cbn [no_space]]; destruct d; try done;
    cbn [NilZero.string_of_uint]; by rewrite ?digits_no_space.
Qed.

Lemma read_word_word (w rest : string) :
  no_space w = true → word_end rest = true → read_word (w +:+ rest) = (w, rest).
Proof.
  intros Hw Hrest. induction w as [|c w IH].
  - rewrite app_nil_l. destruct rest as [|c rest]; [done|].
    cbn [read_word]. simpl in Hrest. by rewrite Hrest.
  - cbn [no_space] in Hw. apply andb_true_iff in Hw as [Hc Hw].
    rewrite app_cons. cbn [read_word]. rewrite IH by done.
    by destruct (isspace c).
Qed.

Lemma int_of_put_int (n : Z) :
  Z.of_int <$> NilZero.int_of_string (put_int n) = Some n.
Proof.
  unfold put_int. rewrite NilZero.isi.
  - simpl. by rewrite DecimalZ.of_to.
  - destruct n as [|p|p]; simpl; [done| |done].
    intros [= Hp]. by apply DecimalPos.Unsigned.to_uint_nonnil in Hp.
  - destruct n as [|p|p]; simpl; [done..|].
    intros [= Hp]. by apply DecimalPos.Unsigned.to_uint_nonnil in Hp.
Qed.

Lemma body_of_line (l behind : string) :
  Str.occurs LF l = false →
  body_of (l +:+ String LF behind) = body_of (String LF behind).
Proof.
  induction l as [|c l IH]; [done|].
  cbn [Str.occurs]. intros [Hc Hl]%orb_false_iff.
  rewrite app_cons.
  change (body_of (String c (l +:+ String LF behind)))
    with (match l +:+ String LF behind with
          | "" => None
          | String c' rest =>
              if Ascii.eqb c LF && Ascii.eqb c' LF then Some rest
              else body_of (l +:+ String LF behind)
          end).
  rewrite Hc. cbn [andb]. rewrite IH by done.
  by destruct l.
Qed.

Lemma status_code_buildResponse (response : Response.t) :
  status_code (buildResponse response) = Some (code response).
Proof.
  unfold status_code. rewrite buildResponse_lines.
  rewrite lines_line.
  2:{ by rewrite !occurs_app, put_int_no_LF, reason_phrase_no_LF. }
  cbn [head mbind option_bind].
  rewrite strip_prefix_app. cbn [mbind option_bind].
  rewrite read_word_word; [|apply put_int_no_space|done].
  apply int_of_put_int.
Qed.

Lemma header_field_content_type (response : Response.t) :
  Str.occurs LF (contentType response) = false →
  header_field "Content-Type" (buildResponse response)
  = Some (contentType response).
Proof.
  intros Htype. unfold header_field. rewrite buildResponse_lines.
  rewrite lines_line.
  2:{ by rewrite !occurs_app, put_int_no_LF, reason_phrase_no_LF. }
  rewrite lines_line by by rewrite occurs_app, Htype.
  cbn [tail header_of_lines].
  change ("Content-Type: " +:+ contentType response)
    with (String "C" ("ontent-Type: " +:+ contentType response)).
  cbn [header_of_lines].
  change (String "C" ("ontent-Type: " +:+ contentType response))
    with (("Content-Type" +:+ ": ") +:+ contentType response).
  by rewrite strip_prefix_app.
Qed.

Lemma body_of_buildResponse (response : Response.t) :
  Str.occurs LF (contentType response) = false →
  body_of (buildResponse response) = Some (body response).
Proof.
  intros Htype. rewrite buildResponse_lines.
  rewrite body_of_line.
  2:{ by rewrite !occurs_app, put_int_no_LF, reason_phrase_no_LF. }
  change (body_of (String LF (("Content-Type: " +:+ contentType response)
                              +:+ ?behind)))
    with (body_of (("Content-Type: " +:+ contentType response) +:+ behind)).
  rewrite body_of_line by by rewrite occurs_app, Htype.
  change (body_of (String LF (("Content-Length: " +:+ ?digits) +:+ ?behind)))
    with (body_of (("Content-Length: " +:+ digits) +:+ behind)).
  rewrite body_of_line by by rewrite occurs_app, put_size_no_LF.
  reflexivity.
Qed.

Lemma decode_buildResponse (response : Response.t) :
  Str.occurs LF (contentType response) = false →
  decode_response (buildResponse response) = Some response.
Proof.
  intros Htype. unfold decode_response.
  rewrite status_code_buildResponse, header_field_content_type,
    header_field_content_length, body_of_buildResponse by done.
  cbn [mbind option_bind]. rewrite decimal_value_put_size.
  cbn [mbind option_bind]. rewrite decide_True by done.
  by destruct response.
Qed.

(** X13. A serialized response can be read back: from the output of
    [buildResponse], the status code on the status line, the value of the
    Content-Type header and the bytes behind the empty line, which are as
    many as the Content-Length header says, give the response again, for
    every code and body and every content type without line feed.  So two
    such responses with the same output are the same. *)
Theorem X13_response_round_trip :
  (∀ response : Response.t,
      Str.occurs LF (contentType response) = false →
      decode_response (buildResponse response) = Some response)
  ∧ (∀ response response' : Response.t,
        Str.occurs LF (contentType response) = false →
        Str.occurs LF (contentType response') = false →
        buildResponse response = buildResponse response' →
        response = response').
Proof.
  split; [exact decode_buildResponse|].
  intros response response' Htype Htype' Heq.
  apply decode_buildResponse in Htype, Htype'. rewrite Heq in Htype.
  congruence.
Qed.

End response_round_trip.

(** ** A connection, from the bytes read to the bytes written *)

Section connection_contract.

Import Response RequestHandler HttpServer.

Lemma c_string_cut (n : nat) (a b : string) :
  c_string (Str.take n (a +:+ String "000" b)) = c_string (Str.take n a).
Proof.
  revert n. induction a as [|c a IH]; intros [|n]; try done.
  rewrite app_cons. cbn [Str.take c_string]. by rewrite IH.
Qed.

Lemma take_app_ge (n : nat) (a b : string) :
  (n ≤ String.length a)%nat → Str.take n (a +:+ b) = Str.take n a.
Proof.
  revert n. induction a as [|c a IH]; intros [|n] Hn; simpl in Hn;
    try done; try lia.
  rewrite app_cons. cbn [Str.take]. rewrite IH; [done|lia].
Qed.

Lemma c_string_all (s : string) :
  Str.occurs "000" s = false → c_string s = s.
Proof.
  induction s as [|c s IH]; [done|].
  cbn [Str.occurs c_string]. intros [-> Hs]%orb_false_iff. by rewrite IH.
Qed.

(** X14. What lies behind byte 2999 of the bytes read, and what lies
    behind their first NUL byte, never reaches the request: the connection
    goes as if it had not been sent. *)
Theorem X14_connection_reads_a_prefix :
  (∀ fs received behind requestHandler,
      (2999 ≤ String.length received)%nat →
      connection fs (received +:+ behind) requestHandler
      = connection fs received requestHandler)
  ∧ (∀ fs received behind requestHandler,
        connection fs (received +:+ String "000" behind) requestHandler
        = connection fs received requestHandler).
Proof.
  split.
  - intros fs received behind requestHandler Hlen. unfold connection.
    by rewrite take_app_ge.
  - intros fs received behind requestHandler. unfold connection.
    by rewrite c_string_cut.
Qed.

(** X15. A connection ends in one of three ways, and leaves the handler
    as it was: the constructor of the request throws [std::out_of_range]
    and nothing is written; or the file of the route of the request opens
    and cannot be read, the read throws [std::ios_base::failure] and
    nothing is written; or the bytes written are the serialized response of
    the handler to the request, with status 200, 404 or 405, which a client
    reads back as that response, the body as long as Content-Length
    says. *)
Theorem X15_connection_outcomes fs received requestHandler :
  (connection fs received requestHandler).2 = requestHandler
  ∧ ((Request.new (c_string (Str.take 2999 received)) = Throws out_of_range
      ∧ (connection fs received requestHandler).1 = Throws out_of_range)
     ∨ (∃ request route,
           Request.new (c_string (Str.take 2999 received)) = Returns request
           ∧ routeLookUp requestHandler !! Request.path request = Some route
           ∧ Request.method request ∈ RouteEntry.allowedMethods route
           ∧ RouteEntry.isFile route = true
           ∧ fs (RouteEntry.content route) = Some Unreadable
           ∧ (connection fs received requestHandler).1 = Throws ios_failure)
     ∨ ∃ request response,
         Request.new (c_string (Str.take 2999 received)) = Returns request
         ∧ (handleRequest fs request requestHandler).1 = Returns response
         ∧ (connection fs received requestHandler).1
           = Returns (buildResponse response)
         ∧ (code response = 200 ∨ code response = 404 ∨ code response = 405)
         ∧ decode_response (buildResponse response) = Some response).
Proof.
  unfold connection.
  destruct (Request_new_terminates (c_string (Str.take 2999 received)))
    as [->|(request & -> & _)].
  - split; [done|]. by left.
  - destruct (handleRequest_cases requestHandler fs request)
      as [(response & Hhandle & Hcode & Htype)
         |(Hhandle & route & Hroute & Hm & Hfile & Hfs)];
      rewrite Hhandle; (split; [done|]); right; [right|left].
    + exists request, response.
      rewrite Hhandle. split_and!; try done. by apply decode_buildResponse.
    + exists request, route. by split_and!.
Qed.

(** X16. A request in the usual form, of at most 2999 bytes and without
    NUL byte, gets the serialized response of the handler to its method and
    path; its version, its headers and its body change nothing. *)
Theorem X16_connection_usual_request fs requestHandler method path version
    hs sent :
  no_space method = true → method ≠ "" →
  no_space path = true → path ≠ "" →
  no_space version = true → version ≠ "" →
  forallb header_ok hs = true →
  (String.length (render_request method path version hs sent) ≤ 2999)%nat →
  Str.occurs "000" (render_request method path version hs sent) = false →
  (connection fs (render_request method path version hs sent)
     requestHandler).1
  = (response ← (handleRequest fs (request_of method path) requestHandler).1;
     Returns (buildResponse response)).
Proof.
  intros Hm ? Hp ? Hv ? Hhs Hlen Hnul. unfold connection.
  rewrite take_all, c_string_all by done.
  rewrite Request_new_usual by
    (try done; unfold Str.size, Str.size_mod; lia).
  set (request := {| Request.method := method |}).
  assert (handleRequest fs request requestHandler
          = handleRequest fs (request_of method path) requestHandler) as ->.
  { by unfold handleRequest. }
  by destruct (handleRequest _ _ _).
Qed.

Lemma head_section_app (items : list head_item) (ls : list string) :
  forallb item_ok items = true →
  head_section (map render_item items ++ ls)
  = map render_item items ++ head_section ls.
Proof.
  induction items as [|item items IH]; [done|].
  cbn [forallb map]. intros [Hitem Hitems]%andb_true_iff.
  rewrite <- app_comm_cons. cbn [head_section].
  rewrite bool_decide_eq_false_2 by by apply item_ok_not_blank.
  by rewrite IH.
Qed.

(** A text that ends with the colon of a header line: the constructor
    throws. *)
Lemma Request_new_cut_behind_colon (requestLine : string)
    (items : list head_item) (name : string) :
  Str.occurs LF requestLine = false →
  forallb item_ok items = true →
  Str.occurs ":" name = false → Str.occurs LF name = false →
  Str.size (requestLine +:+ nl +:+ render_head items +:+ name +:+ ":")
  < Str.size_mod →
  Request.new (requestLine +:+ nl +:+ render_head items +:+ name +:+ ":")
  = Throws out_of_range.
Proof.
  intros Hline Hitems Hcolon HLF Hsize. rewrite Request_new_lines by done.
  change (nl +:+ render_head items +:+ name +:+ ":")
    with (String LF (render_head items +:+ name +:+ ":")).
  rewrite getlines_line by done. simpl tail.
  rewrite getlines_head by done.
  rewrite getlines_no_LF by by rewrite occurs_app, HLF.
  assert (name +:+ ":" ≠ "") as Hne by by destruct name.
  destruct (name +:+ ":") as [|c line] eqn:Hname; [done|]. rewrite <- Hname.
  rewrite head_section_app by done. cbn [head_section].
  rewrite bool_decide_eq_false_2 by by destruct name as [|? [|??]].
  rewrite existsb_app. cbn [existsb].
  assert (is_broken (name +:+ ":") = true) as ->.
  { apply is_broken_spec. eauto. }
  by rewrite orb_true_r.
Qed.

(** X19. A request longer than the buffer whose byte 2999 is the colon
    behind the name of a header is cut there, and the constructor of the
    request throws [std::out_of_range] on what is left: nothing is written,
    whatever the client sent behind the colon. *)
Theorem X19_cut_behind_colon_throws fs requestHandler requestLine items name
    behind :
  Str.occurs LF requestLine = false →
  forallb item_ok items = true →
  Str.occurs ":" name = false → Str.occurs LF name = false →
  String.length (requestLine +:+ nl +:+ render_head items +:+ name +:+ ":")
  = 2999%nat →
  Str.occurs "000" (requestLine +:+ nl +:+ render_head items +:+ name +:+ ":")
  = false →
  (connection fs
     ((requestLine +:+ nl +:+ render_head items +:+ name +:+ ":") +:+ behind)
     requestHandler).1
  = Throws out_of_range.
Proof.
  intros Hline Hitems Hcolon HLF Hlen Hnul. unfold connection.
  rewrite take_app_ge by lia. rewrite take_all by lia.
  rewrite c_string_all by done.
  rewrite Request_new_cut_behind_colon; try done.
  unfold Str.size, Str.size_mod. lia.
Qed.

End connection_contract.

(** ** The first server *)

Section first_server.

Lemma net_header_loop (fuel : nat) (stream : istringstream) (line : string)
    (headers : gmap string string) :
  Net.HttpRequest.header_loop fuel stream line headers
  = Request.header_loop fuel stream line headers.
Proof.
  revert stream line headers.
  induction fuel as [|fuel IH]; intros stream line headers; [done|].
  cbn [Net.HttpRequest.header_loop Request.header_loop].
  destruct (getline stream line) as [stream' line'].
  destruct (_ && _); [|done].
  destruct (Str.find line' ":"); [|apply IH].
  destruct (Str.substr line' 0 _); [|done..]. cbn [mbind outcome_bind].
  destruct (Str.substr line' _ _); [|done..]. cbn [mbind outcome_bind].
  apply IH.
Qed.

Lemma net_body_loop (fuel : nat) (stream : istringstream) (line body : string) :
  Net.HttpRequest.body_loop fuel stream line body
  = Request.body_loop fuel stream line body.
Proof.
  revert stream line body.
  induction fuel as [|fuel IH]; intros stream line body; [done|].
  cbn [Net.HttpRequest.body_loop Request.body_loop].
  destruct (getline stream line) as [stream' line'].
  destruct (negb _); [apply IH|done].
Qed.

Lemma net_request_new (requestText : string) :
  Net.HttpRequest.new requestText
  = (request ← Request.new requestText;
     Returns (Net.HttpRequest.of_main request)).
Proof.
  unfold Net.HttpRequest.new, Request.new. cbv zeta.
  destruct (getline _ "") as [stream line].
  destruct (extract _ "") as [requestLine1 method].
  destruct (extract requestLine1 "") as [requestLine2 path].
  destruct (extract requestLine2 "") as [requestLine3 httpVersion].
  rewrite net_header_loop.
  destruct (Request.header_loop _ _ _ _) as [[[stream' line'] headers]| |];
    cbn [mbind outcome_bind]; [|done..].
  rewrite net_body_loop.
  destruct (body_loop_pending (Request.loop_fuel stream') stream' line' "")
    as (s1 & l1 & ->); [unfold Request.loop_fuel; lia|].
  destruct (body_loop_pending (Request.loop_fuel stream') stream' "" "")
    as (s2 & l2 & ->); [unfold Request.loop_fuel; lia|].
  done.
Qed.

(** X17. The request of the first server is the request of the second:
    on every text the two constructors throw alike or return the same
    method, path, version, headers and body. *)
Theorem X17_first_server_same_request requestText :
  Net.HttpRequest.new requestText
  = (request ← Request.new requestText;
     Returns (Net.HttpRequest.of_main request)).
Proof. apply net_request_new. Qed.

(** X18. The first server answers by the path alone: unless the
    constructor of the request throws, it writes a text/plain response
    with status 200 for the path [/] and 404 for every other path, whatever
    the method, and the body behind the empty line is as long as
    Content-Length says. *)
Theorem X18_first_server_responses received :
  (Net.connection received = Throws out_of_range
   ∧ Request.new (HttpServer.c_string (Str.take 2999 received))
     = Throws out_of_range)
  ∨ ∃ request wire body,
      Request.new (HttpServer.c_string (Str.take 2999 received))
      = Returns request
      ∧ Net.connection received = Returns wire
      ∧ status_code wire
        = Some (if bool_decide (Request.path request = "/") then 200 else 404)
      ∧ header_field "Content-Type" wire = Some "text/plain"
      ∧ body_of wire = Some body
      ∧ header_field "Content-Length" wire ≫= decimal_value
        = Some (String.length body).
Proof.
  unfold Net.connection. cbv zeta. rewrite net_request_new.
  destruct (Request_new_terminates (HttpServer.c_string (Str.take 2999 received)))
    as [->|(request & -> & _)]; [by left|].
  right. cbn [mbind outcome_bind Net.HttpRequest.of_main Net.HttpRequest.path].
  exists request.
  destruct (bool_decide (Request.path request = "/"));
    [|destruct (bool_decide (Request.path request = "/favicon.ico"))];
    eexists _, _; split_and!; try done; vm_compute; reflexivity.
Qed.

End first_server.

(** ** Instances of the further properties *)

Section more_instances.

Import Response RequestHandler HttpServer.

Lemma X1_witness :
  Request.method sample_request = default "" (words "GET  /x?y=1" !! 0%nat)
  ∧ Request.path sample_request = default "" (words "GET  /x?y=1" !! 1%nat)
  ∧ Request.httpVersion sample_request
    = default "" (words "GET  /x?y=1" !! 2%nat).
Proof.
  apply (proj1 X1_request_line_words "GET  /x?y=1" "" sample_request).
  - vm_compute. reflexivity.
  - vm_compute. reflexivity.
Defined.

Lemma X2_witness :
  no_space (Request.method sample_request) = true
  ∧ no_space (Request.path sample_request) = true
  ∧ no_space (Request.httpVersion sample_request) = true.
Proof.
  apply (X2_request_fields_without_space ("GET  /x?y=1" +:+ nl)).
  vm_compute. reflexivity.
Defined.

Lemma X3_witness :
  Request.new ("GET / HTTP/1.1" +:+ nl +:+ "Host:" +:+ nl +:+ nl)
  = Throws out_of_range
  ↔ ∃ line name,
      line ∈ head_section
               (tail (getlines ("GET / HTTP/1.1" +:+ nl +:+ "Host:" +:+ nl +:+ nl)))
      ∧ line = name +:+ ":" ∧ Str.occurs ":" name = false.
Proof.
  apply (X3_constructor_throws_iff_broken_line
           ("GET / HTTP/1.1" +:+ nl +:+ "Host:" +:+ nl +:+ nl)).
  vm_compute. reflexivity.
Defined.

Lemma X4_witness :
  Request.new ("GET /a" +:+ CRLF +:+ "Host:x" +:+ nl +:+ CRLF +:+ "b")
  = Returns {| Request.method := "GET"; Request.path := "/a";
               Request.httpVersion := "";
               Request.headers := <["Host" := ""]> ∅;
               Request.body := "b" +:+ nl |}.
Proof.
  rewrite (X4_constructor_reads_lines
             ("GET /a" +:+ CRLF +:+ "Host:x" +:+ nl +:+ CRLF +:+ "b")).
  - vm_compute. reflexivity.
  - vm_compute. reflexivity.
Defined.

Lemma X5_witness :
  Request.new (("GET / HTTP/1.1" +:+ String CR "") +:+ nl
               +:+ render_head sample_items +:+ CRLF +:+ "abc")
  = Returns {| Request.method := "GET"; Request.path := "/";
               Request.httpVersion := "HTTP/1.1";
               Request.headers := <["Accept" := ""]> (<["Host" := "example.org"]> ∅);
               Request.body := "abc" +:+ nl |}.
Proof.
  rewrite (X5_head_lines_stored ("GET / HTTP/1.1" +:+ String CR "")
             sample_items "abc").
  - vm_compute. reflexivity.
  - vm_compute. reflexivity.
  - vm_compute. reflexivity.
  - vm_compute. reflexivity.
Defined.

Lemma X6_witness :
  Request.new (render_request "POST" "/test/post" "HTTP/1.1" sample_headers "a=1")
  = Returns {| Request.method := "POST"; Request.path := "/test/post";
               Request.httpVersion := "HTTP/1.1";
               Request.headers :=
                 <["Host" := "chipport.test"]> (<["Accept" := "*/*"]> ∅);
               Request.body := "a=1" +:+ nl |}.
Proof.
  rewrite (X6_request_round_trip "POST" "/test/post" "HTTP/1.1"
             sample_headers "a=1")
    by first [done | vm_compute; reflexivity].
  vm_compute. reflexivity.
Defined.

Lemma X7_witness :
  Request.new (("GET / HTTP/1.1" +:+ String CR "") +:+ nl
               +:+ render_head sample_items)
  = Returns {| Request.method := "GET"; Request.path := "/";
               Request.httpVersion := "HTTP/1.1";
               Request.headers := <["Accept" := ""]> (<["Host" := "example.org"]> ∅);
               Request.body := "" |}.
Proof.
  rewrite (X7_no_empty_line_no_body ("GET / HTTP/1.1" +:+ String CR "")
             sample_items).
  - vm_compute. reflexivity.
  - vm_compute. reflexivity.
  - vm_compute. reflexivity.
  - vm_compute. reflexivity.
Defined.

Lemma X9_witness :
  handleRequest fs_index
    {| Request.method := "GET"; Request.path := "/";
       Request.httpVersion := "HTTP/1.0";
       Request.headers := <["Host" := "x"]> ∅; Request.body := "ignored" |}
    RequestHandler.new
  = handleRequest fs_everything (request_of "GET" "/") RequestHandler.new.
Proof.
  apply X9_method_path_and_one_file; [reflexivity..|].
  intros route Hroute _ _. vm_compute in Hroute.
  injection Hroute as <-. reflexivity.
Defined.

Lemma X10_witness :
  contentType {| code := 404;
                 body := "<html><body>404 Resource Not Found: /favicon.ico</body></html>";
                 contentType := "text/html" |}
  ∈ ["text/html"; "image/jpeg"; "image/png"; "text/css";
     "application/javascript"; "application/octet-stream"].
Proof.
  apply (X10_content_types RequestHandler.new fs_index
           (request_of "GET" "/favicon.ico")).
  vm_compute. reflexivity.
Defined.

Lemma X13_witness :
  decode_response
    (buildResponse {| code := 404; body := "Not here"; contentType := "text/plain" |})
  = Some {| code := 404; body := "Not here"; contentType := "text/plain" |}.
Proof.
  apply (proj1 X13_response_round_trip).
  vm_compute. reflexivity.
Defined.

Lemma X14_witness :
  connection fs_index (("GET / HTTP/1.1" +:+ CRLF +:+ padding 2983) +:+ "cut")
    RequestHandler.new
  = connection fs_index ("GET / HTTP/1.1" +:+ CRLF +:+ padding 2983)
      RequestHandler.new.
Proof.
  apply (proj1 X14_connection_reads_a_prefix).
  vm_compute. lia.
Defined.

Lemma X16_witness :
  (connection fs_index
     (render_request "GET" "/" "HTTP/1.1" sample_headers "") RequestHandler.new).1
  = (response ← (handleRequest fs_index (request_of "GET" "/")
                   RequestHandler.new).1;
     Returns (buildResponse response)).
Proof.
  apply X16_connection_usual_request;
    first [done | vm_compute; reflexivity | vm_compute; lia].
Defined.

Lemma X19_witness :
  (connection fs_index
     ((("GET / HTTP/1.1" +:+ String CR "") +:+ nl +:+ render_head long_head
       +:+ "Host" +:+ ":") +:+ " example.org" +:+ CRLF +:+ CRLF)
     RequestHandler.new).1
  = Throws out_of_range.
Proof.
  apply (X19_cut_behind_colon_throws fs_index RequestHandler.new
           ("GET / HTTP/1.1" +:+ String CR "") long_head "Host").
  - vm_compute. reflexivity.
  - vm_compute. reflexivity.
  - vm_compute. reflexivity.
  - vm_compute. reflexivity.
  - vm_compute. reflexivity.
  - vm_compute. reflexivity.
Defined.

End more_instances.
